(** * OCR Text Analyzer: classification, summary and extraction pipeline

    A shallow embedding of the three source files of the repository:
    - [lib/types.ts]: the zod schemas (module [Types]);
    - the server-side stage functions [detectDocumentType],
      [summarizeDocument] and [extractDocumentData] (module [TextAnalysis]);
    - the [OCRAnalyzer] React component that coordinates them and keeps the
      history of recent inputs (module [OCRAnalyzer]).

    JavaScript strings are sequences of UTF-16 code units, numbers that flow
    through the program are never computed with and are kept as rationals,
    promises are kept as their two settlements, and an [async] function is cut
    at its [await]: what it does before, the remote call it suspends on, and
    what it does with the settlement of that call. *)

From Stdlib Require Import List String Ascii Bool NArith QArith Lia Arith.
Import ListNotations.

Set Implicit Arguments.
Set Warnings "-register-all".

Close Scope Q_scope.
Open Scope nat_scope.
Open Scope list_scope.
Open Scope string_scope.

(* ------------------------------------------------------------------ *)
(** ** JavaScript values used by the program *)

Module Js.

(** A JavaScript string: a sequence of UTF-16 code units.  [length],
    [substring] and [trim] all count code units. *)
Definition jsstring := list N.

(** A string literal of the source, all of whose characters are ASCII. *)
Fixpoint lit (s : string) : jsstring :=
  match s with
  | EmptyString => []
  | String c s' => N_of_ascii c :: lit s'
  end.

Fixpoint jsstring_eqb (a b : jsstring) : bool :=
  match a, b with
  | [], [] => true
  | x :: a', y :: b' => N.eqb x y && jsstring_eqb a' b'
  | _, _ => false
  end.

(** ECMAScript [WhiteSpace] and [LineTerminator] code points, the ones
    [String.prototype.trim] strips. *)
Definition isWhiteSpace (c : N) : bool :=
  (N.eqb c 9 || N.eqb c 11 || N.eqb c 12 || N.eqb c 32 || N.eqb c 160
   || N.eqb c 5760 || (N.leb 8192 c && N.leb c 8202)
   || N.eqb c 8239 || N.eqb c 8287 || N.eqb c 12288 || N.eqb c 65279)%bool.

Definition isLineTerminator (c : N) : bool :=
  (N.eqb c 10 || N.eqb c 13 || N.eqb c 8232 || N.eqb c 8233)%bool.

Definition isTrimmed (c : N) : bool := isWhiteSpace c || isLineTerminator c.

Fixpoint trimStart (s : jsstring) : jsstring :=
  match s with
  | [] => []
  | c :: s' => if isTrimmed c then trimStart s' else s
  end.

Definition trimEnd (s : jsstring) : jsstring := rev (trimStart (rev s)).

(** [s.trim()] *)
Definition trim (s : jsstring) : jsstring := trimEnd (trimStart s).

(** Truthiness of a string: the empty string is the only falsy one. *)
Definition truthy (s : jsstring) : bool :=
  match s with [] => false | _ :: _ => true end.

(** [s.substring(0, n)] *)
Definition substring0 (n : nat) (s : jsstring) : jsstring := firstn n s.

(** [a.slice(0, n)] on an array *)
Definition slice0 {A : Type} (n : nat) (a : list A) : list A := firstn n a.

(** [s.replace(pat, rep)] with a string pattern on a source literal: the
    first occurrence only. *)
Fixpoint dropString (n : nat) (s : string) : string :=
  match n, s with
  | O, _ => s
  | S _, EmptyString => EmptyString
  | S n', String _ s' => dropString n' s'
  end.

Fixpoint replace (pat rep s : string) : string :=
  if String.prefix pat s then rep ++ dropString (String.length pat) s
  else match s with
       | EmptyString => EmptyString
       | String c s' => String c (replace pat rep s')
       end.

(** Does [pat] occur in [s]? *)
Fixpoint includes (pat s : string) : bool :=
  String.prefix pat s ||
  match s with
  | EmptyString => false
  | String _ s' => includes pat s'
  end.

(** [new Error(message)] *)
Record JsError : Type := Error { message : jsstring }.

(** The settlement of a promise. *)
Inductive Outcome (A : Type) : Type :=
| Resolved (value : A)
| Rejected (error : JsError).
Arguments Rejected {A} error.

(** JSON-like data: what a structured reply of the model is made of. *)
Inductive Json : Type :=
| JNull
| JBool (b : bool)
| JNum (q : Q)
| JStr (s : jsstring)
| JArr (items : list Json)
| JObj (members : list (string * Json)).

Fixpoint member (k : string) (members : list (string * Json)) : option Json :=
  match members with
  | [] => None
  | (k', v) :: rest => if String.eqb k k' then Some v else member k rest
  end.

(** [v.k] on a parsed reply; [None] stands for [undefined]. *)
Definition field (k : string) (v : Json) : option Json :=
  match v with
  | JObj members => member k members
  | _ => None
  end.

End Js.

(* ------------------------------------------------------------------ *)
(** ** lib/types.ts: the zod schemas *)

Module Types.
Import Js.

(** The zod combinators the file uses. *)
Inductive Zod : Type :=
| z_string
| z_number
| z_literal (value : string)
| z_enum (values : list string)
| z_array (element : Zod)
| z_object (shape : list (string * Zod))
| optional (inner : Zod)
| describe (inner : Zod) (description : string).

(** [base.extend(augmentation)]: the keys of [augmentation] override those
    of the base shape and new keys follow. *)
Fixpoint shape_set (k : string) (z : Zod) (shape : list (string * Zod))
  : list (string * Zod) :=
  match shape with
  | [] => [(k, z)]
  | (k', z') :: rest =>
      if String.eqb k k' then (k, z) :: rest else (k', z') :: shape_set k z rest
  end.

Definition extend (base : Zod) (augmentation : list (string * Zod)) : Zod :=
  match base with
  | z_object shape =>
      z_object (fold_left (fun sh kz => shape_set (fst kz) (snd kz) sh)
                          augmentation shape)
  | _ => z_object augmentation
  end.

(** Does the schema accept the value?  [None] is an absent key. *)
Fixpoint accepts (z : Zod) (v : option Json) {struct z} : bool :=
  match z with
  | z_string => match v with Some (JStr _) => true | _ => false end
  | z_number => match v with Some (JNum _) => true | _ => false end
  | z_literal value =>
      match v with Some (JStr s) => jsstring_eqb s (lit value) | _ => false end
  | z_enum values =>
      match v with
      | Some (JStr s) => existsb (fun value => jsstring_eqb s (lit value)) values
      | _ => false
      end
  | z_array element =>
      match v with
      | Some (JArr items) => forallb (fun item => accepts element (Some item)) items
      | _ => false
      end
  | z_object shape =>
      match v with
      | Some (JObj members) =>
          (fix all (sh : list (string * Zod)) : bool :=
             match sh with
             | [] => true
             | (k, zk) :: rest => accepts zk (member k members) && all rest
             end) shape
      | _ => false
      end
  | optional inner =>
      match v with None => true | Some _ => accepts inner v end
  | describe inner _ => accepts inner v
  end.

(** The literal a schema pins its [documentType] key to, if any. *)
Fixpoint shape_get (k : string) (shape : list (string * Zod)) : option Zod :=
  match shape with
  | [] => None
  | (k', z) :: rest => if String.eqb k k' then Some z else shape_get k rest
  end.

Definition documentType_literal (z : Zod) : option string :=
  match z with
  | z_object shape =>
      match shape_get "documentType" shape with
      | Some (z_literal value) => Some value
      | _ => None
      end
  | _ => None
  end.

Definition LineItemSchema : Zod :=
  z_object
    [ ("description", describe z_string "Description of the item or service");
      ("quantity", describe (optional z_number) "Quantity of items");
      ("unitPrice", describe (optional z_number) "Price per unit");
      ("totalPrice", describe z_number "Total price for this line item");
      ("vatRate", describe (optional z_number) "VAT rate applied to this item (in %)");
      ("vatAmount", describe (optional z_number) "VAT amount for this line item") ].

Definition BaseDocumentSchema : Zod :=
  z_object
    [ ("documentNumber", describe z_string "Document identifier/number");
      ("date", describe z_string "Document date in YYYY-MM-DD format");
      ("seller",
        z_object
          [ ("name", describe z_string "Name of the seller/company");
            ("registrationNumber",
              describe (optional z_string) "Registration number of the seller");
            ("vatNumber", describe (optional z_string) "VAT number of the seller");
            ("address", describe (optional z_string) "Address of the seller") ]);
      ("buyer",
        z_object
          [ ("name", describe z_string "Name of the buyer/customer");
            ("registrationNumber",
              describe (optional z_string) "Registration number of the buyer");
            ("vatNumber", describe (optional z_string) "VAT number of the buyer");
            ("address", describe (optional z_string) "Address of the buyer") ]);
      ("totalAmount", describe z_number "Total amount including VAT");
      ("currency", describe z_string "Currency used in the document (e.g., EUR)") ].

Definition InvoiceSchema : Zod :=
  extend BaseDocumentSchema
    [ ("documentType", z_literal "invoice");
      ("lineItems", z_array LineItemSchema);
      ("subtotal", describe z_number "Total amount before VAT");
      ("vatAmount", describe z_number "Total VAT amount");
      ("dueDate", describe (optional z_string) "Payment due date in YYYY-MM-DD format");
      ("paymentDetails",
        optional
          (z_object
             [ ("bankAccount", describe (optional z_string) "Bank account number");
               ("bankName", describe (optional z_string) "Name of the bank");
               ("reference", describe (optional z_string) "Payment reference") ])) ].

Definition DeliveryNoteSchema : Zod :=
  extend BaseDocumentSchema
    [ ("documentType", z_literal "deliveryNote");
      ("lineItems", z_array LineItemSchema);
      ("deliveryDate",
        describe (optional z_string) "Date of delivery in YYYY-MM-DD format");
      ("relatedInvoice",
        describe (optional z_string) "Reference to related invoice number") ].

Definition ReceiptSchema : Zod :=
  extend BaseDocumentSchema
    [ ("documentType", z_literal "receipt");
      ("lineItems", z_array LineItemSchema);
      ("paymentMethod",
        describe (optional z_string) "Method of payment (cash, card, etc.)");
      ("cashierName", describe (optional z_string) "Name of the cashier") ].

(** Combined schema for document type detection *)
Definition DocumentTypeSchema : Zod :=
  z_object
    [ ("documentType",
        describe (z_enum ["invoice"; "deliveryNote"; "receipt"])
                 "The detected document type");
      ("confidence", describe z_number "Confidence level in the detection (0-1)");
      ("reasoning",
        describe z_string "Reasoning behind the document type detection") ].

End Types.

(* ------------------------------------------------------------------ *)
(** ** The stage functions (server side) *)

Module TextAnalysis.
Import Js Types.

Definition dq : string := String "034"%char EmptyString.

Record ChatOpenAI : Type :=
  { modelName : string; temperature : Q }.

(** Initialize the OpenAI model *)
Definition model : ChatOpenAI :=
  {| modelName := "gpt-4o-mini"; temperature := 0%Q |}.

Record PromptTemplate : Type := fromTemplate { template : string }.

(** The second element of a chain: the model itself, or the model bound to
    a schema its output has to conform to. *)
Inductive Runnable : Type :=
| plain (m : ChatOpenAI)
| withStructuredOutput (m : ChatOpenAI) (schema : Zod).

(** [RunnableSequence.from([prompt, runnable])] *)
Record RunnableSequence : Type :=
  from { prompt : PromptTemplate; runnable : Runnable }.

(** One invocation of the remote text-generation capability:
    [chain.invoke(input)]. *)
Record RemoteCall : Type :=
  invoke { chain : RunnableSequence; input : list (string * jsstring) }.

(** Document type detection prompt *)
Definition documentTypePrompt : PromptTemplate := fromTemplate ("
You are a document analysis expert specializing in Latvian business documents.
Analyze the following OCR text and determine the document type.

Document types:
- Invoice (rēķins): Contains billing information, payment terms, and usually has line items with prices.
- Delivery Note (pavadzīme): Documents goods being delivered, may reference an invoice, focuses on items delivered.
- Receipt (čeks): Typically shorter, issued at point of sale, often has a simpler format than invoices.

OCR Text:
{text}

Determine the document type based on the content, structure, and any explicit mentions.
If the document is ambiguous, look for key indicators:
- Invoices typically mention payment terms, due dates, and have " ++ dq ++ "Rēķins" ++ dq ++ " or " ++ dq ++ "Invoice" ++ dq ++ " in the title.
- Delivery notes focus on delivered items and may mention " ++ dq ++ "Pavadzīme" ++ dq ++ " or " ++ dq ++ "Delivery Note" ++ dq ++ ".
- Receipts are usually shorter, from retail establishments, and may mention " ++ dq ++ "Čeks" ++ dq ++ " or " ++ dq ++ "Receipt" ++ dq ++ ".

Provide your analysis in the requested format.
").

(** Create the document type detection chain *)
Definition documentTypeDetectionChain : RunnableSequence :=
  from documentTypePrompt (withStructuredOutput model DocumentTypeSchema).

(** Document summarization prompt *)
Definition documentSummaryPrompt : PromptTemplate := fromTemplate "
You are a document summarization expert.
Provide a concise summary of the following {documentType} document.

OCR Text:
{text}

Focus on the key information relevant to this type of document:
- For invoices: Focus on parties involved, total amounts, payment terms, and key dates.
- For delivery notes: Focus on items delivered, delivery dates, and parties involved.
- For receipts: Focus on the merchant, purchased items, and total amounts.

Provide a concise summary in 3-5 sentences.
".

(** Create the document summary chain *)
Definition documentSummaryChain : RunnableSequence :=
  from documentSummaryPrompt (plain model).

(** Base extraction prompt template *)
Definition baseExtractionPromptTemplate : string := "
You are a document data extraction expert specializing in Latvian business documents.
Extract structured information from the following {documentType} OCR text.

OCR Text:
{text}

Guidelines for extraction:
1. Reconstruct the document structure, especially tables and line items.
2. For tables, identify column headers and align values correctly.
3. Validate data integrity (e.g., check if quantity × price = total).
4. For dates, use YYYY-MM-DD format.
5. For numbers, extract as numeric values (without currency symbols).
6. Pay special attention to distinguishing between seller and buyer information.
7. For Latvian documents, look for terms like " ++ dq ++ "Pārdevējs" ++ dq ++ " (Seller) and " ++ dq ++ "Pircējs" ++ dq ++ " (Buyer).
8. VAT may be referred to as " ++ dq ++ "PVN" ++ dq ++ " in Latvian documents.

Extract the information in the requested structured format.
".

(** Create extraction prompts for each document type *)
Definition invoiceExtractionPrompt : PromptTemplate :=
  fromTemplate (replace "{documentType}" "invoice" baseExtractionPromptTemplate).

Definition deliveryNoteExtractionPrompt : PromptTemplate :=
  fromTemplate (replace "{documentType}" "delivery note" baseExtractionPromptTemplate).

Definition receiptExtractionPrompt : PromptTemplate :=
  fromTemplate (replace "{documentType}" "receipt" baseExtractionPromptTemplate).

(** Create extraction chains for each document type *)
Definition invoiceExtractionChain : RunnableSequence :=
  from invoiceExtractionPrompt (withStructuredOutput model InvoiceSchema).

Definition deliveryNoteExtractionChain : RunnableSequence :=
  from deliveryNoteExtractionPrompt (withStructuredOutput model DeliveryNoteSchema).

Definition receiptExtractionChain : RunnableSequence :=
  from receiptExtractionPrompt (withStructuredOutput model ReceiptSchema).

(** The schema a chain asks the model to conform to. *)
Definition requested_schema (c : RunnableSequence) : option Zod :=
  match runnable c with
  | withStructuredOutput _ schema => Some schema
  | plain _ => None
  end.

(** What the detection chain resolves to: the inferred type of
    [DocumentTypeSchema]. *)
Record DocumentTypeResult : Type :=
  { documentType : jsstring; confidence : Q; reasoning : jsstring }.

(** The same value as the parsed reply it was read from. *)
Definition DocumentTypeResult_json (r : DocumentTypeResult) : Json :=
  JObj [ ("documentType", JStr (documentType r));
         ("confidence", JNum (confidence r));
         ("reasoning", JStr (reasoning r)) ].

(** What the summary chain resolves to: a chat message. *)
Record AIMessage : Type := { content : jsstring }.

(** An [async] stage function, cut at its only [await]: either it throws
    before it reaches the remote call, or it issues [call] and turns the
    settlement of the call (of type [O]) into its own settlement. *)
Inductive Stage (O A : Type) : Type :=
| Throws (error : JsError)
| Awaits (call : RemoteCall) (resume : Outcome O -> Outcome A).
Arguments Throws {O A} error.

(** The remote calls a stage function issues. *)
Definition calls {O A : Type} (s : Stage O A) : list RemoteCall :=
  match s with
  | Throws _ => []
  | Awaits call _ => [call]
  end.

(** How the promise returned by the stage function settles, [reply] being
    the settlement of the remote call if one was issued. *)
Definition settle {O A : Type} (s : Stage O A) (reply : Outcome O) : Outcome A :=
  match s with
  | Throws error => Rejected error
  | Awaits _ resume => resume reply
  end.

(** Detects the document type from OCR text.  The [catch] block logs the
    error and throws it again. *)
Definition detectDocumentType (ocrText : jsstring)
  : Stage DocumentTypeResult DocumentTypeResult :=
  Awaits (invoke documentTypeDetectionChain [("text", ocrText)])
    (fun reply =>
       match reply with
       | Resolved typeDetectionResult =>
           Resolved {| documentType := documentType typeDetectionResult;
                       confidence := confidence typeDetectionResult;
                       reasoning := reasoning typeDetectionResult |}
       | Rejected error => Rejected error
       end).

(** Generates a summary of the document based on its type. *)
Definition summarizeDocument (ocrText documentType : jsstring)
  : Stage AIMessage jsstring :=
  Awaits (invoke documentSummaryChain
            [("text", ocrText); ("documentType", documentType)])
    (fun reply =>
       match reply with
       | Resolved summaryResult => Resolved (content summaryResult)
       | Rejected error => Rejected error
       end).

(** Extracts structured data from the document based on its type: the
    [switch] on [documentType], whose [default] arm throws. *)
Definition extractDocumentData (ocrText documentType : jsstring)
  : Stage Json Json :=
  let rethrow (reply : Outcome Json) :=
    match reply with
    | Resolved extractionResult => Resolved extractionResult
    | Rejected error => Rejected error
    end in
  if jsstring_eqb documentType (lit "invoice") then
    Awaits (invoke invoiceExtractionChain [("text", ocrText)]) rethrow
  else if jsstring_eqb documentType (lit "deliveryNote") then
    Awaits (invoke deliveryNoteExtractionChain [("text", ocrText)]) rethrow
  else if jsstring_eqb documentType (lit "receipt") then
    Awaits (invoke receiptExtractionChain [("text", ocrText)]) rethrow
  else
    Throws (Error (lit "Unsupported document type: " ++ documentType)%list).

End TextAnalysis.

(* ------------------------------------------------------------------ *)
(** ** The OCRAnalyzer component *)

Module OCRAnalyzer.
Import Js.
Import TextAnalysis (DocumentTypeResult, AIMessage, RemoteCall, Stage,
                     Throws, Awaits, settle).

Definition ExtractedData : Type := Json.

Record AnalysisResults : Type :=
  { documentType : option DocumentTypeResult;
    summary : option jsstring;
    extractedData : option ExtractedData }.

Record HistoryItem : Type := { text : jsstring; timestamp : N }.

Definition STORAGE_KEY : string := "ocr-analyzer-history".

(** The state variables of the component, one per [useState]. *)
Record State : Type :=
  { inputText : jsstring;
    isDetectingType : bool;
    isSummarizing : bool;
    isExtractingData : bool;
    results : option AnalysisResults;
    error : option jsstring;
    history : list HistoryItem;
    activeTab : string }.

Definition initialState : State :=
  {| inputText := [];
     isDetectingType := false;
     isSummarizing := false;
     isExtractingData := false;
     results := None;
     error := None;
     history := [];
     activeTab := "input" |}.

Definition setInputText (v : jsstring) (s : State) : State :=
  {| inputText := v; isDetectingType := isDetectingType s;
     isSummarizing := isSummarizing s; isExtractingData := isExtractingData s;
     results := results s; error := error s; history := history s;
     activeTab := activeTab s |}.

Definition setIsDetectingType (v : bool) (s : State) : State :=
  {| inputText := inputText s; isDetectingType := v;
     isSummarizing := isSummarizing s; isExtractingData := isExtractingData s;
     results := results s; error := error s; history := history s;
     activeTab := activeTab s |}.

Definition setIsSummarizing (v : bool) (s : State) : State :=
  {| inputText := inputText s; isDetectingType := isDetectingType s;
     isSummarizing := v; isExtractingData := isExtractingData s;
     results := results s; error := error s; history := history s;
     activeTab := activeTab s |}.

Definition setIsExtractingData (v : bool) (s : State) : State :=
  {| inputText := inputText s; isDetectingType := isDetectingType s;
     isSummarizing := isSummarizing s; isExtractingData := v;
     results := results s; error := error s; history := history s;
     activeTab := activeTab s |}.

Definition setResults (v : option AnalysisResults) (s : State) : State :=
  {| inputText := inputText s; isDetectingType := isDetectingType s;
     isSummarizing := isSummarizing s; isExtractingData := isExtractingData s;
     results := v; error := error s; history := history s;
     activeTab := activeTab s |}.

Definition setError (v : option jsstring) (s : State) : State :=
  {| inputText := inputText s; isDetectingType := isDetectingType s;
     isSummarizing := isSummarizing s; isExtractingData := isExtractingData s;
     results := results s; error := v; history := history s;
     activeTab := activeTab s |}.

Definition setHistory (v : list HistoryItem) (s : State) : State :=
  {| inputText := inputText s; isDetectingType := isDetectingType s;
     isSummarizing := isSummarizing s; isExtractingData := isExtractingData s;
     results := results s; error := error s; history := v;
     activeTab := activeTab s |}.

Definition setActiveTab (v : string) (s : State) : State :=
  {| inputText := inputText s; isDetectingType := isDetectingType s;
     isSummarizing := isSummarizing s; isExtractingData := isExtractingData s;
     results := results s; error := error s; history := history s;
     activeTab := v |}.

(** [{...r}]: spreading [null] adds no key. *)
Definition spread (r : option AnalysisResults) : AnalysisResults :=
  match r with
  | Some r => r
  | None => {| documentType := None; summary := None; extractedData := None |}
  end.

Definition with_documentType (v : DocumentTypeResult) (r : AnalysisResults) :=
  {| documentType := Some v; summary := summary r;
     extractedData := extractedData r |}.

Definition with_summary (v : jsstring) (r : AnalysisResults) :=
  {| documentType := documentType r; summary := Some v;
     extractedData := extractedData r |}.

Definition with_extractedData (v : ExtractedData) (r : AnalysisResults) :=
  {| documentType := documentType r; summary := summary r;
     extractedData := Some v |}.

(** [!results || !results.documentType] *)
Definition classification (s : State) : option DocumentTypeResult :=
  match results s with
  | Some r => documentType r
  | None => None
  end.

(** The entry both handlers build:
    [{ text: inputText.substring(0, 100) + (inputText.length > 100 ? "..." : ""),
       timestamp: Date.now() }] *)
Definition historyEntry (inputText : jsstring) (now : N) : HistoryItem :=
  {| text := (substring0 100 inputText
              ++ (if Nat.ltb 100 (List.length inputText) then lit "..." else []))%list;
     timestamp := now |}.

(** [[entry, ...history].slice(0, 5)] *)
Definition newHistory (entry : HistoryItem) (history : list HistoryItem)
  : list HistoryItem :=
  slice0 5 (entry :: history).

(** A handler suspended at an [await].  [render] is the render the handler
    was created in: the values of [inputText], [results] and [history] it
    closes over.  [stage] is the stage call it waits for. *)
Inductive Pending : Type :=
| DetectPending (render : State) (stage : Stage DocumentTypeResult DocumentTypeResult)
| SummarizePending (render : State) (stage : Stage AIMessage jsstring)
| ExtractPending (render : State) (stage : Stage Json Json)
| ProcessAllDetecting (render : State)
    (stage : Stage DocumentTypeResult DocumentTypeResult)
| ProcessAllSummarizing (render : State) (detected : DocumentTypeResult)
    (stage : Stage AIMessage jsstring)
| ProcessAllExtracting (render : State) (detected : DocumentTypeResult)
    (stage : Stage Json Json).

(** What one run of handler code up to its next suspension does: the state
    it leaves, the [await] it stops at (if any), the remote calls it
    issued, and whether it called [setHistory], which makes the effect that
    saves the history run. *)
Record Reaction : Type :=
  { next : State;
    suspended : option Pending;
    issued : list RemoteCall;
    historySet : bool }.

Definition done (s : State) : Reaction :=
  {| next := s; suspended := None; issued := []; historySet := false |}.

Definition doneWithHistory (s : State) : Reaction :=
  {| next := s; suspended := None; issued := []; historySet := true |}.

(** [await stage]: when the stage call issues a remote call the handler is
    suspended on it; when it throws before that, the rest of the handler
    [k] runs with the rejection. *)
Definition await {O A : Type} (stage : Stage O A) (p : Stage O A -> Pending)
    (k : Outcome A -> State -> Reaction) (s : State) : Reaction :=
  match stage with
  | Throws e => k (Rejected e) s
  | Awaits call _ =>
      {| next := s; suspended := Some (p stage); issued := [call];
         historySet := false |}
  end.

(** *** handleDetectDocumentType *)

Definition detectSettled (render : State) (now : N)
    (o : Outcome DocumentTypeResult) (s : State) : Reaction :=
  match o with
  | Resolved documentType =>
      let s := setResults
                 (Some (with_documentType documentType (spread (results render)))) s in
      let s := setHistory
                 (newHistory (historyEntry (inputText render) now) (history render)) s in
      let s := setActiveTab "results" s in
      doneWithHistory (setIsDetectingType false s)
  | Rejected _ =>
      let s := setError
                 (Some (lit "An error occurred during document type detection. Please try again.")) s in
      done (setIsDetectingType false s)
  end.

Definition handleDetectDocumentType (now : N) (s : State) : Reaction :=
  if negb (truthy (trim (inputText s))) then
    done (setError (Some (lit "Please enter some text to analyze")) s)
  else
    let s1 := setIsDetectingType true (setError None s) in
    await (TextAnalysis.detectDocumentType (inputText s))
          (DetectPending s) (detectSettled s now) s1.

(** *** handleSummarizeDocument *)

Definition summarizeSettled (render : State) (o : Outcome jsstring) (s : State)
  : Reaction :=
  match o with
  | Resolved summary =>
      let s := setResults (Some (with_summary summary (spread (results render)))) s in
      done (setIsSummarizing false s)
  | Rejected _ =>
      let s := setError
                 (Some (lit "An error occurred during document summarization. Please try again.")) s in
      done (setIsSummarizing false s)
  end.

Definition handleSummarizeDocument (s : State) : Reaction :=
  match classification s with
  | None => done (setError (Some (lit "Please detect document type first")) s)
  | Some detected =>
      let s1 := setIsSummarizing true (setError None s) in
      await (TextAnalysis.summarizeDocument (inputText s)
               (TextAnalysis.documentType detected))
            (SummarizePending s) (summarizeSettled s) s1
  end.

(** *** handleExtractDocumentData *)

Definition extractSettled (render : State) (o : Outcome Json) (s : State)
  : Reaction :=
  match o with
  | Resolved extractedData =>
      let s := setResults
                 (Some (with_extractedData extractedData (spread (results render)))) s in
      done (setIsExtractingData false s)
  | Rejected _ =>
      let s := setError
                 (Some (lit "An error occurred during data extraction. Please try again.")) s in
      done (setIsExtractingData false s)
  end.

Definition handleExtractDocumentData (s : State) : Reaction :=
  match classification s with
  | None => done (setError (Some (lit "Please detect document type first")) s)
  | Some detected =>
      let s1 := setIsExtractingData true (setError None s) in
      await (TextAnalysis.extractDocumentData (inputText s)
               (TextAnalysis.documentType detected))
            (ExtractPending s) (extractSettled s) s1
  end.

(** *** handleProcessAll *)

(** The [catch] and [finally] blocks of [handleProcessAll]. *)
Definition processAllFailed (s : State) : Reaction :=
  let s := setError
             (Some (lit "An error occurred during document processing. Please try again.")) s in
  done (setIsExtractingData false (setIsSummarizing false (setIsDetectingType false s))).

(** Step 3 settled. *)
Definition processAllExtracted (render : State) (now : N) (o : Outcome Json)
    (s : State) : Reaction :=
  match o with
  | Resolved extractedData =>
      let s := setResults
                 (Some (with_extractedData extractedData (spread (results s)))) s in
      let s := setHistory
                 (newHistory (historyEntry (inputText render) now) (history render)) s in
      let s := setActiveTab "results" s in
      doneWithHistory
        (setIsExtractingData false (setIsSummarizing false (setIsDetectingType false s)))
  | Rejected _ => processAllFailed s
  end.

(** Step 2 settled. *)
Definition processAllSummarized (render : State) (detected : DocumentTypeResult)
    (now : N) (o : Outcome jsstring) (s : State) : Reaction :=
  match o with
  | Resolved summary =>
      let s := setResults (Some (with_summary summary (spread (results s)))) s in
      let s := setIsSummarizing false s in
      let s := setIsExtractingData true s in
      await (TextAnalysis.extractDocumentData (inputText render)
               (TextAnalysis.documentType detected))
            (ProcessAllExtracting render detected)
            (processAllExtracted render now) s
  | Rejected _ => processAllFailed s
  end.

(** Step 1 settled. *)
Definition processAllDetected (render : State) (now : N)
    (o : Outcome DocumentTypeResult) (s : State) : Reaction :=
  match o with
  | Resolved detected =>
      let s := setResults
                 (Some {| documentType := Some detected; summary := None;
                          extractedData := None |}) s in
      let s := setIsDetectingType false s in
      let s := setIsSummarizing true s in
      await (TextAnalysis.summarizeDocument (inputText render)
               (TextAnalysis.documentType detected))
            (ProcessAllSummarizing render detected)
            (processAllSummarized render detected now) s
  | Rejected _ => processAllFailed s
  end.

Definition handleProcessAll (now : N) (s : State) : Reaction :=
  if negb (truthy (trim (inputText s))) then
    done (setError (Some (lit "Please enter some text to analyze")) s)
  else
    let s1 := setIsDetectingType true (setError None s) in
    await (TextAnalysis.detectDocumentType (inputText s))
          (ProcessAllDetecting s) (processAllDetected s now) s1.

(** *** handleClear, loadFromHistory, Clear History *)

Definition handleClear (s : State) : State :=
  setActiveTab "input" (setError None (setResults None (setInputText [] s))).

Definition loadFromHistory (text : jsstring) (s : State) : State :=
  setError None (setResults None (setInputText text s)).

(** [onClick={() => setHistory([])}] *)
Definition clearHistory (s : State) : State := setHistory [] s.

(** *** The two effects on the history *)

(** What [localStorage.getItem(STORAGE_KEY)] holds when it is not [null]:
    the string [JSON.stringify(h)], which [JSON.parse] turns back into [h],
    or a string that is empty or that [JSON.parse] throws on. *)
Inductive StoredValue : Type :=
| Serialized (h : list HistoryItem)
| Unparseable.

(** Load history from local storage, on mount. *)
Definition loadHistory (savedHistory : option StoredValue) (s : State) : State :=
  match savedHistory with
  | Some (Serialized h) => setHistory h s
  | Some Unparseable => s
  | None => s
  end.

(** Save history to local storage, whenever [history] has been set. *)
Definition saveHistory (history : list HistoryItem)
    (stored : option StoredValue) : option StoredValue :=
  if Nat.ltb 0 (List.length history) then Some (Serialized history) else stored.

(** *** What the rendered page lets the user do *)

Definition busy (s : State) : bool :=
  isDetectingType s || isSummarizing s || isExtractingData s.

Definition absent {A : Type} (o : option A) : bool :=
  match o with None => true | Some _ => false end.

(** The [disabled] attributes of the five buttons. *)
Definition detectDisabled (s : State) : bool :=
  busy s || negb (truthy (trim (inputText s))).

Definition summarizeDisabled (s : State) : bool :=
  busy s || absent (classification s).

Definition extractDisabled (s : State) : bool :=
  busy s || absent (classification s).

Definition processAllDisabled (s : State) : bool :=
  busy s || negb (truthy (trim (inputText s))).

Definition clearDisabled (s : State) : bool :=
  busy s || (negb (truthy (inputText s)) && absent (results s)).

(** The buttons, the text area and the recent inputs are inside the input
    tab; the Clear History button and the recent inputs are rendered when
    [history.length > 0]; the results tab is disabled when [!results]. *)
Definition inputTabShown (s : State) : bool := String.eqb (activeTab s) "input".

Definition historyShown (s : State) : bool := Nat.ltb 0 (List.length (history s)).

Definition resultsTabDisabled (s : State) : bool := absent (results s).

Definition resultsShown (s : State) : bool :=
  String.eqb (activeTab s) "results" && negb (absent (results s)).

End OCRAnalyzer.

(* ------------------------------------------------------------------ *)
(** ** The page in its browser *)

Module Page.
Import Js OCRAnalyzer.
Import TextAnalysis (DocumentTypeResult, AIMessage, RemoteCall, settle).

(** The component, the handler suspended on a remote call (if any), the
    entry of the local storage under [STORAGE_KEY], every remote call
    issued so far, and the clock [Date.now()] reads. *)
Record World : Type :=
  { component : State;
    inflight : option Pending;
    localStorage : option StoredValue;
    network : list RemoteCall;
    clock : N }.

(** The settlement of a remote call, by the kind of chain. *)
Inductive RemoteReply : Type :=
| ClassifierReply (o : Outcome DocumentTypeResult)
| ChatReply (o : Outcome AIMessage)
| ExtractorReply (o : Outcome Json).

Inductive Event : Type :=
| TypeText (value : jsstring)
| ClickDetect
| ClickSummarize
| ClickExtract
| ClickProcessAll
| ClickClear
| ClickClearHistory
| ClickRecent (index : nat)
| SelectTab (value : string)
| ClickBackToInput
| Reply (reply : RemoteReply)
| Elapse (ms : N)
| Reload.

(** The state after a render caused by plain setters. *)
Definition render (w : World) (s : State) : World :=
  {| component := s; inflight := inflight w; localStorage := localStorage w;
     network := network w; clock := clock w |}.

Definition saved (historySet : bool) (s : State) (stored : option StoredValue) :=
  if historySet then saveHistory (history s) stored else stored.

(** A handler is called: it runs up to its first suspension. *)
Definition call (w : World) (r : Reaction) : World :=
  {| component := next r;
     inflight := match suspended r with
                 | Some p => Some p
                 | None => inflight w
                 end;
     localStorage := saved (historySet r) (next r) (localStorage w);
     network := (network w ++ issued r)%list;
     clock := clock w |}.

(** The suspended handler continues, up to its next suspension. *)
Definition continue (w : World) (r : Reaction) : World :=
  {| component := next r;
     inflight := suspended r;
     localStorage := saved (historySet r) (next r) (localStorage w);
     network := (network w ++ issued r)%list;
     clock := clock w |}.

(** The rest of a suspended handler, given the settlement of the remote
    call it waits for. *)
Definition resume (p : Pending) (reply : RemoteReply) (now : N) (s : State)
  : option Reaction :=
  match p, reply with
  | DetectPending render stage, ClassifierReply o =>
      Some (detectSettled render now (settle stage o) s)
  | SummarizePending render stage, ChatReply o =>
      Some (summarizeSettled render (settle stage o) s)
  | ExtractPending render stage, ExtractorReply o =>
      Some (extractSettled render (settle stage o) s)
  | ProcessAllDetecting render stage, ClassifierReply o =>
      Some (processAllDetected render now (settle stage o) s)
  | ProcessAllSummarizing render detected stage, ChatReply o =>
      Some (processAllSummarized render detected now (settle stage o) s)
  | ProcessAllExtracting render detected stage, ExtractorReply o =>
      Some (processAllExtracted render now (settle stage o) s)
  | _, _ => None
  end.

(** Mounting the component: the first render, then the two effects. *)
Definition mount (stored : option StoredValue) (network : list RemoteCall)
    (clock : N) : World :=
  let s := loadHistory stored initialState in
  {| component := s; inflight := None;
     localStorage := saveHistory (history s) stored;
     network := network; clock := clock |}.

(** A first visit: nothing stored yet. *)
Definition boot : World := mount None [] 0%N.

Definition step (w : World) (e : Event) : World :=
  let s := component w in
  match e with
  | TypeText value =>
      if inputTabShown s then render w (setInputText value s) else w
  | ClickDetect =>
      if inputTabShown s && negb (detectDisabled s)
      then call w (handleDetectDocumentType (clock w) s) else w
  | ClickSummarize =>
      if inputTabShown s && negb (summarizeDisabled s)
      then call w (handleSummarizeDocument s) else w
  | ClickExtract =>
      if inputTabShown s && negb (extractDisabled s)
      then call w (handleExtractDocumentData s) else w
  | ClickProcessAll =>
      if inputTabShown s && negb (processAllDisabled s)
      then call w (handleProcessAll (clock w) s) else w
  | ClickClear =>
      if inputTabShown s && negb (clearDisabled s)
      then render w (handleClear s) else w
  | ClickClearHistory =>
      if inputTabShown s && historyShown s
      then call w (doneWithHistory (clearHistory s)) else w
  | ClickRecent index =>
      if inputTabShown s then
        match nth_error (history s) index with
        | Some item => render w (loadFromHistory (text item) s)
        | None => w
        end
      else w
  | SelectTab value =>
      if String.eqb value "results" && resultsTabDisabled s then w
      else render w (setActiveTab value s)
  | ClickBackToInput =>
      if resultsShown s then render w (setActiveTab "input" s) else w
  | Reply reply =>
      match inflight w with
      | Some p =>
          match resume p reply (clock w) s with
          | Some r => continue w r
          | None => w
          end
      | None => w
      end
  | Elapse ms =>
      {| component := s; inflight := inflight w; localStorage := localStorage w;
         network := network w; clock := (clock w + ms)%N |}
  | Reload => mount (localStorage w) (network w) (clock w)
  end.

Definition run (w : World) (events : list Event) : World :=
  fold_left step events w.

(** The coordinator states of the design, read off the component. *)
Inductive CoordinatorState : Type :=
| Idle | Detecting | Summarizing | Extracting | Complete | Failed.

Definition coordinatorState (s : State) : CoordinatorState :=
  if isDetectingType s then Detecting
  else if isSummarizing s then Summarizing
  else if isExtractingData s then Extracting
  else if negb (absent (error s)) then Failed
  else if negb (absent (results s)) then Complete
  else Idle.

(** Most recent first: no entry is older than one that follows it. *)
Fixpoint recentFirst (h : list HistoryItem) : Prop :=
  match h with
  | [] => True
  | e :: rest =>
      Forall (fun older => (timestamp older <= timestamp e)%N) rest
      /\ recentFirst rest
  end.

(** The render a suspended handler closes over. *)
Definition closure (p : Pending) : State :=
  match p with
  | DetectPending render _ => render
  | SummarizePending render _ => render
  | ExtractPending render _ => render
  | ProcessAllDetecting render _ => render
  | ProcessAllSummarizing render _ _ => render
  | ProcessAllExtracting render _ _ => render
  end.

(** A history as the component keeps it: at most 5 entries, most recent
    first, none stamped later than [now]. *)
Definition kept (now : N) (h : list HistoryItem) : Prop :=
  List.length h <= 5
  /\ recentFirst h
  /\ Forall (fun e => (timestamp e <= now)%N) h.

(** The invariant of the page: the history of the component, the history
    a suspended handler closes over and the stored history are all kept
    that way. *)
Definition invariant (w : World) : Prop :=
  kept (clock w) (history (component w))
  /\ match inflight w with
     | Some p => kept (clock w) (history (closure p))
     | None => True
     end
  /\ match localStorage w with
     | Some (Serialized h) => kept (clock w) h
     | Some Unparseable => True
     | None => True
     end.

Definition reactionKept (now : N) (r : Reaction) : Prop :=
  kept now (history (next r))
  /\ match suspended r with
     | Some p => kept now (history (closure p))
     | None => True
     end.

End Page.

(* ------------------------------------------------------------------ *)
(** ** Concrete inputs used by the examples below *)

Module Samples.
Import Js OCRAnalyzer Page.

(** A classification the model may send back. *)
Definition classified (category : string) (confidence : Q)
  : TextAnalysis.DocumentTypeResult :=
  {| TextAnalysis.documentType := lit category;
     TextAnalysis.confidence := confidence;
     TextAnalysis.reasoning := lit "Mentions PVN and a total" |}.

(** A reply that conforms to [DocumentTypeSchema] with a confidence of 1.5. *)
Definition overconfident : TextAnalysis.DocumentTypeResult :=
  classified "invoice" (3 # 2).

Definition rekins : jsstring := lit "Rekins Nr. 123, PVN 21%, Kopa 121.00 EUR".

Definition timeout : JsError := Error (lit "Request timed out").

(** A minimal record that conforms to [InvoiceSchema]. *)
Definition invoiceRecord : Json :=
  JObj [ ("documentNumber", JStr (lit "123"));
         ("date", JStr (lit "2024-01-31"));
         ("seller", JObj [("name", JStr (lit "SIA Alfa"))]);
         ("buyer", JObj [("name", JStr (lit "SIA Beta"))]);
         ("totalAmount", JNum 121%Q);
         ("currency", JStr (lit "EUR"));
         ("documentType", JStr (lit "invoice"));
         ("lineItems",
           JArr [JObj [ ("description", JStr (lit "Pakalpojums"));
                        ("totalPrice", JNum 100%Q) ]]);
         ("subtotal", JNum 100%Q);
         ("vatAmount", JNum 21%Q) ].

(** The user types a text and asks for its type; the call is in flight. *)
Definition detecting : World := run boot [TypeText rekins; ClickDetect].

(** One complete single-stage detection, back on the input tab. *)
Definition oneDetection (t : jsstring) : list Event :=
  [ TypeText t; Elapse 10; ClickDetect; Elapse 250;
    Reply (ClassifierReply (Resolved (classified "invoice" (9 # 10))));
    SelectTab "input" ].

(** Five detections in a row. *)
Definition fiveDetections : list Event :=
  (oneDetection (lit "a") ++ oneDetection (lit "b") ++ oneDetection (lit "c")
   ++ oneDetection (lit "d") ++ oneDetection (lit "e"))%list.

(** Process-all whose detection succeeds and whose summary fails. *)
Definition summaryFails : list Event :=
  [ TypeText rekins; ClickProcessAll;
    Reply (ClassifierReply (Resolved (classified "invoice" (9 # 10))));
    Elapse 40;
    Reply (ChatReply (Rejected timeout)) ].

(** A classified session waiting for its summary. *)
Definition summarizing : World :=
  run boot (oneDetection rekins ++ [ClickSummarize])%list.

(** A text of 101 code units. *)
Definition longText : jsstring := repeat 120%N 101.

End Samples.

(* ------------------------------------------------------------------ *)
(** ** Disciplines the page keeps, and the runs they are stated on *)

Module Discipline.
Import Js OCRAnalyzer Page.

(** The three in-flight flags of a state. *)
Definition flags (detecting summarizing extracting : bool) (s : State) : Prop :=
  isDetectingType s = detecting
  /\ isSummarizing s = summarizing
  /\ isExtractingData s = extracting.

(** The flags agree with the handler that is suspended: exactly the flag of
    the stage it waits for is set, and none when no handler is suspended. *)
Definition awaited (p : option Pending) (s : State) : Prop :=
  match p with
  | None => flags false false false s
  | Some (DetectPending _ _) => flags true false false s
  | Some (ProcessAllDetecting _ _) => flags true false false s
  | Some (SummarizePending _ _) => flags false true false s
  | Some (ProcessAllSummarizing _ _ _) => flags false true false s
  | Some (ExtractPending _ _) => flags false false true s
  | Some (ProcessAllExtracting _ _ _) => flags false false true s
  end.

(** The store mirrors the history: nothing is stored before the first entry,
    what is stored is a non-empty list, and the history of the component is
    that list unless it has been cleared. *)
Definition mirrored (w : World) : Prop :=
  match localStorage w with
  | None => history (component w) = []
  | Some (Serialized h) =>
      h <> [] /\ (history (component w) = [] \/ history (component w) = h)
  | Some Unparseable => False
  end.

(** What a run of handler code does to the history: it leaves the list [h]
    it found and does not call [setHistory], or it calls [setHistory] with a
    non-empty list. *)
Definition recorded (h : list HistoryItem) (r : Reaction) : Prop :=
  (historySet r = false /\ history (next r) = h)
  \/ (historySet r = true /\ history (next r) <> []).

(** The results tab is active only when there are results to show. *)
Definition resultsTabHasResults (s : State) : Prop :=
  activeTab s = "results" -> results s <> None.

(** The three categories [extractDocumentData] has a chain for. *)
Definition knownCategory (documentType : jsstring) : Prop :=
  In documentType [lit "invoice"; lit "deliveryNote"; lit "receipt"].

(** The input tab is shown, no stage is in flight and the text is not blank:
    the Detect and Process All buttons are enabled. *)
Definition ready (w : World) : Prop :=
  inputTabShown (component w) = true
  /\ busy (component w) = false
  /\ truthy (trim (inputText (component w))) = true.

(** The clicks that call a stage handler. *)
Definition stageClicks : list Event :=
  [ClickDetect; ClickSummarize; ClickExtract; ClickProcessAll].

(** The events that can make the page issue a remote call. *)
Definition mayCall (e : Event) : bool :=
  match e with
  | ClickDetect | ClickSummarize | ClickExtract | ClickProcessAll => true
  | Reply _ => true
  | _ => false
  end.

(** Process All, each of its three calls resolving. *)
Definition processAllRun (detected : TextAnalysis.DocumentTypeResult)
    (message : TextAnalysis.AIMessage) (extracted : Json) : list Event :=
  [ ClickProcessAll;
    Reply (ClassifierReply (Resolved detected));
    Reply (ChatReply (Resolved message));
    Reply (ExtractorReply (Resolved extracted)) ].


(** Summary first, extraction second; and the other way round. *)
Definition summarizeThenExtract (message : TextAnalysis.AIMessage)
    (extracted : Json) : list Event :=
  [ ClickSummarize; Reply (ChatReply (Resolved message));
    ClickExtract; Reply (ExtractorReply (Resolved extracted)) ].

Definition extractThenSummarize (message : TextAnalysis.AIMessage)
    (extracted : Json) : list Event :=
  [ ClickExtract; Reply (ExtractorReply (Resolved extracted));
    ClickSummarize; Reply (ChatReply (Resolved message)) ].

(** A world with a text typed in and nothing asked yet. *)
Definition typed : World := run boot [TypeText Samples.rekins].

(** A classified session, back on the input tab. *)
Definition classifiedSession : World :=
  run boot (Samples.oneDetection Samples.rekins).

Definition sampleMessage : TextAnalysis.AIMessage :=
  {| TextAnalysis.content := lit "Invoice 123 for 121.00 EUR." |}.



(** Process All waiting for its first, second and third call. *)
Definition processingAll : World := run typed [ClickProcessAll].

Definition processingAllSummary : World :=
  run processingAll
      [Reply (ClassifierReply (Resolved (Samples.classified "invoice" (9 # 10))))].

End Discipline.

(* ------------------------------------------------------------------ *)
(** ** Properties of the stage functions *)

Import Js Types.

Lemma jsstring_eqb_eq (a b : jsstring) : jsstring_eqb a b = true <-> a = b.
Proof.
  revert b; induction a as [|x a IH]; intros [|y b]; simpl; split;
    try congruence; try discriminate.
  - intros H. apply andb_prop in H as [Hx Hab].
    apply N.eqb_eq in Hx. apply IH in Hab. now subst.
  - intros [= -> ->]. rewrite N.eqb_refl. simpl. now apply IH.
Qed.

Lemma jsstring_eqb_neq (a b : jsstring) : a <> b -> jsstring_eqb a b = false.
Proof.
  intros Hne. destruct (jsstring_eqb a b) eqn:E; [|reflexivity].
  apply jsstring_eqb_eq in E. contradiction.
Qed.

(** A value an object schema accepts has, under each key of the shape, a
    member that the key's schema accepts. *)
Lemma accepts_object_member (shape : list (string * Zod)) (k : string) (zk : Zod)
    (members : list (string * Json)) :
  shape_get k shape = Some zk ->
  accepts (z_object shape) (Some (JObj members)) = true ->
  accepts zk (member k members) = true.
Proof.
  simpl. induction shape as [|[k' z'] rest IH]; simpl; [discriminate|].
  intros Hget Hall. apply andb_prop in Hall as [Hhere Hrest].
  destruct (String.eqb k k') eqn:E.
  - apply String.eqb_eq in E. injection Hget as <-. now subst.
  - now apply IH.
Qed.

Lemma accepts_literal (value : string) (v : option Json) :
  accepts (z_literal value) v = true -> v = Some (JStr (lit value)).
Proof.
  destruct v as [[| | |s| |]|]; simpl; try discriminate.
  intros H. apply jsstring_eqb_eq in H. now subst.
Qed.

(** A record accepted by a schema that pins [documentType] to a literal
    carries that literal. *)
Lemma accepted_record_documentType (schema : Zod) (category : string) (record : Json) :
  documentType_literal schema = Some category ->
  accepts schema (Some record) = true ->
  field "documentType" record = Some (JStr (lit category)).
Proof.
  destruct schema as [| | | | |shape| |]; simpl; try discriminate.
  destruct (shape_get "documentType" shape) as [[]|] eqn:Hget; try discriminate.
  intros [= <-] Hacc.
  destruct record as [| | | | |members]; try discriminate.
  apply accepts_literal.
  exact (accepts_object_member shape "documentType" members Hget Hacc).
Qed.

(** C1.  For each of the three categories, [extractDocumentData] issues
    exactly one remote call, on that category's chain: the prompt is the base
    template with the category's name filled in, the schema the model is
    bound to is the category's schema, whose [documentType] is the literal of
    that category, so that a record the schema accepts carries that category
    and no other; the settlement of the call is passed on as it is. *)
Theorem C1_extract_dispatches_to_the_category_schema (ocrText : jsstring) :
  let extract := TextAnalysis.extractDocumentData ocrText in
  let text := [("text", ocrText)] in
  (TextAnalysis.calls (extract (lit "invoice"))
     = [TextAnalysis.invoke TextAnalysis.invoiceExtractionChain text]
   /\ TextAnalysis.calls (extract (lit "deliveryNote"))
     = [TextAnalysis.invoke TextAnalysis.deliveryNoteExtractionChain text]
   /\ TextAnalysis.calls (extract (lit "receipt"))
     = [TextAnalysis.invoke TextAnalysis.receiptExtractionChain text])
  /\ (TextAnalysis.requested_schema TextAnalysis.invoiceExtractionChain
        = Some InvoiceSchema
      /\ TextAnalysis.requested_schema TextAnalysis.deliveryNoteExtractionChain
        = Some DeliveryNoteSchema
      /\ TextAnalysis.requested_schema TextAnalysis.receiptExtractionChain
        = Some ReceiptSchema)
  /\ (documentType_literal InvoiceSchema = Some "invoice"
      /\ documentType_literal DeliveryNoteSchema = Some "deliveryNote"
      /\ documentType_literal ReceiptSchema = Some "receipt")
  /\ (TextAnalysis.template (TextAnalysis.prompt TextAnalysis.invoiceExtractionChain)
        = replace "{documentType}" "invoice" TextAnalysis.baseExtractionPromptTemplate
      /\ TextAnalysis.template (TextAnalysis.prompt TextAnalysis.deliveryNoteExtractionChain)
        = replace "{documentType}" "delivery note" TextAnalysis.baseExtractionPromptTemplate
      /\ TextAnalysis.template (TextAnalysis.prompt TextAnalysis.receiptExtractionChain)
        = replace "{documentType}" "receipt" TextAnalysis.baseExtractionPromptTemplate)
  /\ (forall p,
        In p [TextAnalysis.invoiceExtractionPrompt;
              TextAnalysis.deliveryNoteExtractionPrompt;
              TextAnalysis.receiptExtractionPrompt] ->
        includes "{documentType}" (TextAnalysis.template p) = false
        /\ includes "{text}" (TextAnalysis.template p) = true)
  /\ (forall category reply,
        In category ["invoice"; "deliveryNote"; "receipt"] ->
        TextAnalysis.settle (extract (lit category)) reply = reply)
  /\ (forall category schema record,
        In (category, schema)
           [("invoice", InvoiceSchema); ("deliveryNote", DeliveryNoteSchema);
            ("receipt", ReceiptSchema)] ->
        accepts schema (Some record) = true ->
        field "documentType" record = Some (JStr (lit category))).
Proof.
  cbv zeta.
  split; [repeat split|]. split; [repeat split|]. split; [repeat split|].
  split; [repeat split|]. split; [|split].
  - intros p Hin. simpl in Hin.
    destruct Hin as [<-|[<-|[<-|[]]]]; vm_compute; split; reflexivity.
  - intros category reply Hin. simpl in Hin.
    destruct Hin as [<-|[<-|[<-|[]]]]; destruct reply; reflexivity.
  - intros category schema record Hin.
    apply accepted_record_documentType.
    simpl in Hin.
    destruct Hin as [[= <- <-]|[[= <- <-]|[[= <- <-]|[]]]]; reflexivity.
Qed.

(** The schema of the invoice chain accepts a concrete invoice, which carries
    the invoice literal. *)
Lemma C1_witness :
  accepts InvoiceSchema (Some Samples.invoiceRecord) = true
  /\ field "documentType" Samples.invoiceRecord = Some (JStr (lit "invoice")).
Proof.
  split; [vm_compute; reflexivity|].
  pose proof (C1_extract_dispatches_to_the_category_schema []) as H.
  cbv zeta in H. destruct H as (_ & _ & _ & _ & _ & _ & H).
  apply (H "invoice" InvoiceSchema).
  - simpl. left. reflexivity.
  - vm_compute. reflexivity.
Defined.

(** C2.  For every category other than the three known ones,
    [extractDocumentData] throws [Error("Unsupported document type: ...")]
    in the [default] arm of its [switch]: no remote call is issued, and the
    promise is rejected with that error whatever the remote would answer. *)
Theorem C2_extract_rejects_unknown_category (ocrText documentType : jsstring) :
  documentType <> lit "invoice" ->
  documentType <> lit "deliveryNote" ->
  documentType <> lit "receipt" ->
  let unsupported := Error (lit "Unsupported document type: " ++ documentType)%list in
  TextAnalysis.extractDocumentData ocrText documentType = TextAnalysis.Throws unsupported
  /\ TextAnalysis.calls (TextAnalysis.extractDocumentData ocrText documentType) = []
  /\ forall reply,
       TextAnalysis.settle (TextAnalysis.extractDocumentData ocrText documentType) reply
       = Rejected unsupported.
Proof.
  intros Hi Hd Hr unsupported.
  assert (E : TextAnalysis.extractDocumentData ocrText documentType
              = TextAnalysis.Throws unsupported).
  { unfold TextAnalysis.extractDocumentData.
    rewrite (jsstring_eqb_neq Hi), (jsstring_eqb_neq Hd), (jsstring_eqb_neq Hr).
    reflexivity. }
  rewrite E. repeat split.
Qed.

Lemma C2_witness :
  TextAnalysis.calls (TextAnalysis.extractDocumentData Samples.rekins (lit "contract")) = []
  /\ TextAnalysis.settle
       (TextAnalysis.extractDocumentData Samples.rekins (lit "contract"))
       (Resolved Samples.invoiceRecord)
     = Rejected (Error (lit "Unsupported document type: contract")).
Proof.
  destruct (@C2_extract_rejects_unknown_category Samples.rekins (lit "contract"))
    as (_ & Hcalls & Hsettle); try (vm_compute; discriminate).
  split; [exact Hcalls | exact (Hsettle _)].
Defined.

(** C8, as stated, fails: a reply that [DocumentTypeSchema] accepts may carry
    a confidence of 1.5, and [detectDocumentType] hands it on. *)
Lemma C8_counterexample :
  accepts DocumentTypeSchema
    (Some (TextAnalysis.DocumentTypeResult_json Samples.overconfident)) = true
  /\ TextAnalysis.settle (TextAnalysis.detectDocumentType Samples.rekins)
       (Resolved Samples.overconfident)
     = Resolved Samples.overconfident
  /\ ~ (0 <= TextAnalysis.confidence Samples.overconfident
        /\ TextAnalysis.confidence Samples.overconfident <= 1)%Q.
Proof.
  split; [reflexivity|]. split; [reflexivity|].
  intros [_ H]. apply H. reflexivity.
Qed.

(** C8, amended.  For every input text [detectDocumentType] issues one call
    on the detection chain, bound to [DocumentTypeSchema]; when the call
    resolves it returns the reply's type, confidence and reasoning as they
    are, and when the call is rejected it is rejected with the same error.
    The schema takes any number as a confidence: no range is checked. *)
Theorem C8_detect_returns_the_reported_confidence (ocrText : jsstring) :
  TextAnalysis.calls (TextAnalysis.detectDocumentType ocrText)
    = [TextAnalysis.invoke TextAnalysis.documentTypeDetectionChain [("text", ocrText)]]
  /\ TextAnalysis.requested_schema TextAnalysis.documentTypeDetectionChain
     = Some DocumentTypeSchema
  /\ (forall reply,
        TextAnalysis.settle (TextAnalysis.detectDocumentType ocrText) (Resolved reply)
        = Resolved reply)
  /\ (forall error,
        TextAnalysis.settle (TextAnalysis.detectDocumentType ocrText) (Rejected error)
        = Rejected error)
  /\ (forall q : Q,
        accepts DocumentTypeSchema
          (Some (TextAnalysis.DocumentTypeResult_json (Samples.classified "receipt" q)))
        = true).
Proof.
  repeat split; try reflexivity.
  intros [t c r]. reflexivity.
Qed.

(* ------------------------------------------------------------------ *)
(** ** Properties of the component *)

Import OCRAnalyzer Page.

Lemma trimStart_blank (t : jsstring) :
  forallb isTrimmed t = true -> trimStart t = [].
Proof.
  induction t as [|c t IH]; simpl; [reflexivity|].
  intros H. apply andb_prop in H as [Hc Ht]. rewrite Hc. now apply IH.
Qed.

Lemma trim_blank (t : jsstring) : forallb isTrimmed t = true -> trim t = [].
Proof.
  intros H. unfold trim, trimEnd. rewrite (trimStart_blank t H). reflexivity.
Qed.

(** C3.  In every state without a classification, [handleSummarizeDocument]
    and [handleExtractDocumentData] only set the error to the message that
    asks for a detection first: no stage function is called, nothing is
    awaited and no remote call is issued.  Their two buttons are disabled in
    such a state. *)
Theorem C3_summarize_and_extract_need_a_classification (w : World) :
  classification (component w) = None ->
  let s := component w in
  let rejected := done (setError (Some (lit "Please detect document type first")) s) in
  handleSummarizeDocument s = rejected
  /\ handleExtractDocumentData s = rejected
  /\ network (call w (handleSummarizeDocument s)) = network w
  /\ network (call w (handleExtractDocumentData s)) = network w
  /\ inflight (call w (handleSummarizeDocument s)) = inflight w
  /\ inflight (call w (handleExtractDocumentData s)) = inflight w
  /\ step w ClickSummarize = w
  /\ step w ClickExtract = w.
Proof.
  intros Hnone s rejected. subst s rejected.
  assert (Hs : handleSummarizeDocument (component w)
               = done (setError (Some (lit "Please detect document type first"))
                                (component w)))
    by (unfold handleSummarizeDocument; now rewrite Hnone).
  assert (He : handleExtractDocumentData (component w)
               = done (setError (Some (lit "Please detect document type first"))
                                (component w)))
    by (unfold handleExtractDocumentData; now rewrite Hnone).
  rewrite Hs, He.
  repeat split; try (unfold call; simpl; now rewrite app_nil_r).
  - unfold step, summarizeDisabled. cbv zeta. rewrite Hnone. simpl.
    now rewrite orb_true_r, andb_false_r.
  - unfold step, extractDisabled. cbv zeta. rewrite Hnone. simpl.
    now rewrite orb_true_r, andb_false_r.
Qed.

Lemma C3_witness :
  handleSummarizeDocument (component boot)
    = done (setError (Some (lit "Please detect document type first")) (component boot))
  /\ network (call boot (handleExtractDocumentData (component boot))) = [].
Proof.
  destruct (C3_summarize_and_extract_need_a_classification boot)
    as (Hs & _ & _ & He & _); [reflexivity|].
  split; [exact Hs | exact He].
Defined.

(** C5.  When the input text is empty or consists only of characters that
    [trim] strips, [handleDetectDocumentType] and [handleProcessAll] only set
    the error to the validation message: no stage function is called and no
    remote call is issued.  Their two buttons are disabled for such a text. *)
Theorem C5_blank_input_is_rejected_locally (now : N) (w : World) :
  forallb isTrimmed (inputText (component w)) = true ->
  let s := component w in
  let rejected := done (setError (Some (lit "Please enter some text to analyze")) s) in
  handleDetectDocumentType now s = rejected
  /\ handleProcessAll now s = rejected
  /\ network (call w (handleDetectDocumentType now s)) = network w
  /\ network (call w (handleProcessAll now s)) = network w
  /\ inflight (call w (handleDetectDocumentType now s)) = inflight w
  /\ inflight (call w (handleProcessAll now s)) = inflight w
  /\ step w ClickDetect = w
  /\ step w ClickProcessAll = w.
Proof.
  intros Hblank s rejected. subst s rejected. apply trim_blank in Hblank.
  assert (Hd : handleDetectDocumentType now (component w)
               = done (setError (Some (lit "Please enter some text to analyze"))
                                (component w)))
    by (unfold handleDetectDocumentType; now rewrite Hblank).
  assert (Hp : handleProcessAll now (component w)
               = done (setError (Some (lit "Please enter some text to analyze"))
                                (component w)))
    by (unfold handleProcessAll; now rewrite Hblank).
  rewrite Hd, Hp.
  repeat split; try (unfold call; simpl; now rewrite app_nil_r).
  - unfold step, detectDisabled. cbv zeta. rewrite Hblank. simpl.
    now rewrite orb_true_r, andb_false_r.
  - unfold step, processAllDisabled. cbv zeta. rewrite Hblank. simpl.
    now rewrite orb_true_r, andb_false_r.
Qed.

Lemma C5_witness :
  let w := run boot [TypeText [32; 9; 10; 160; 8232]%N] in
  error (next (handleDetectDocumentType 0 (component w)))
    = Some (lit "Please enter some text to analyze")
  /\ network (call w (handleProcessAll 0 (component w))) = [].
Proof.
  intros w.
  destruct (C5_blank_input_is_rejected_locally 0 w) as (Hd & _ & _ & Hp & _);
    [reflexivity|].
  split; [now rewrite Hd | exact Hp].
Defined.

(** C6, as stated, fails: with a detection in flight, [handleClear] leaves
    [isDetectingType] set, so the coordinator is still detecting, and when
    the call resolves the classification is back. *)
Lemma C6_counterexample :
  let s := component Samples.detecting in
  isDetectingType s = true
  /\ coordinatorState (handleClear s) = Detecting
  /\ coordinatorState (handleClear s) <> Idle
  /\ classification
       (component
          (step (render Samples.detecting (handleClear s))
                (Reply (ClassifierReply (Resolved Samples.overconfident)))))
     = Some Samples.overconfident.
Proof.
  repeat split; try reflexivity. discriminate.
Qed.

(** C6, amended.  [handleClear] always empties the input text, sets the
    results (classification, summary and record) and the error to absent and
    shows the input tab; it leaves the three in-flight flags and the history
    as they are.  From every state with no stage in flight, the coordinator
    is Idle afterwards; the Clear button is disabled while a stage is in
    flight. *)
Theorem C6_clear_resets_the_session (s : State) :
  (inputText (handleClear s) = []
   /\ results (handleClear s) = None
   /\ classification (handleClear s) = None
   /\ error (handleClear s) = None
   /\ activeTab (handleClear s) = "input"
   /\ history (handleClear s) = history s
   /\ isDetectingType (handleClear s) = isDetectingType s
   /\ isSummarizing (handleClear s) = isSummarizing s
   /\ isExtractingData (handleClear s) = isExtractingData s)
  /\ (busy s = false -> coordinatorState (handleClear s) = Idle)
  /\ (busy s = true -> clearDisabled s = true).
Proof.
  split; [repeat split|split].
  - unfold busy, coordinatorState. simpl.
    destruct (isDetectingType s), (isSummarizing s), (isExtractingData s);
      simpl; congruence.
  - unfold clearDisabled. now intros ->.
Qed.

Lemma C6_witness :
  let s := component (run boot (Samples.oneDetection Samples.rekins)) in
  classification s = Some (Samples.classified "invoice" (9 # 10))
  /\ coordinatorState (handleClear s) = Idle.
Proof.
  intros s. split; [reflexivity|].
  apply (C6_clear_resets_the_session s). reflexivity.
Defined.

(** The entry the handlers build holds the whole text when it has at most
    100 code units, and its first 100 code units followed by three dots when
    it has more. *)
Lemma historyEntry_text (t : jsstring) (now : N) :
  historyEntry t now
  = {| text := if Nat.ltb 100 (List.length t)
               then (firstn 100 t ++ lit "...")%list else t;
       timestamp := now |}.
Proof.
  unfold historyEntry, substring0.
  destruct (Nat.ltb 100 (List.length t)) eqn:E; [reflexivity|].
  apply Nat.ltb_ge in E. now rewrite app_nil_r, firstn_all2.
Qed.

Example historyEntry_longText :
  text (historyEntry Samples.longText 0)
    = (repeat 120%N 100 ++ lit "...")%list
  /\ text (historyEntry (repeat 120%N 100) 0) = repeat 120%N 100.
Proof. split; reflexivity. Qed.

(** C7, as stated, fails in process-all mode: the detection succeeds (the
    classification is shown) and the summary call fails, and no entry is
    added to the history nor written to the store. *)
Lemma C7_counterexample :
  let w := run boot Samples.summaryFails in
  classification (component w) = Some (Samples.classified "invoice" (9 # 10))
  /\ history (component w) = []
  /\ localStorage w = None.
Proof. repeat split. Qed.

(** C7, amended.  When the detection awaited by [handleDetectDocumentType]
    succeeds, and when the extraction awaited by [handleProcessAll] (its
    third and last stage) succeeds, a new entry is put at the head of the
    history the handler closed over, the list is cut to 5 and written to the
    store.  The entry is stamped with the current time; its text is the
    input text the handler closed over when that has at most 100 code units,
    and its first 100 code units followed by three dots when it has more. *)
Theorem C7_successful_run_is_recorded (w : World) (closure : State)
    (reply : RemoteReply) :
  (exists stage o detected,
      inflight w = Some (DetectPending closure stage)
      /\ reply = ClassifierReply o
      /\ TextAnalysis.settle stage o = Resolved detected)
  \/ (exists detected stage o extracted,
      inflight w = Some (ProcessAllExtracting closure detected stage)
      /\ reply = ExtractorReply o
      /\ TextAnalysis.settle stage o = Resolved extracted) ->
  let t := inputText closure in
  let entry :=
    {| text := if Nat.ltb 100 (List.length t)
               then (firstn 100 t ++ lit "...")%list else t;
       timestamp := clock w |} in
  let w' := step w (Reply reply) in
  history (component w') = firstn 5 (entry :: history closure)
  /\ hd_error (history (component w')) = Some entry
  /\ localStorage w' = Some (Serialized (history (component w'))).
Proof.
  intros H t entry w'. subst t entry w'.
  rewrite <- historyEntry_text.
  destruct H as [(stage & o & detected & Hp & -> & Hs)
                |(detected & stage & o & extracted & Hp & -> & Hs)];
    unfold step; cbv zeta; rewrite Hp; unfold resume; rewrite Hs;
    repeat split.
Qed.

Lemma C7_witness :
  let w' := step Samples.detecting
              (Reply (ClassifierReply (Resolved Samples.overconfident))) in
  history (component w')
    = [ {| text := Samples.rekins; timestamp := 0 |} ]
  /\ localStorage w'
    = Some (Serialized [ {| text := Samples.rekins; timestamp := 0 |} ]).
Proof.
  intros w'.
  destruct (@C7_successful_run_is_recorded Samples.detecting
              (component (run boot [TypeText Samples.rekins]))
              (ClassifierReply (Resolved Samples.overconfident)))
    as (Hh & _ & Hs).
  - left.
    exists (TextAnalysis.detectDocumentType Samples.rekins),
           (Resolved Samples.overconfident), Samples.overconfident.
    repeat split.
  - split; [exact Hh | exact Hs].
Defined.

(** C9.  When the call awaited by [handleSummarizeDocument] or by
    [handleExtractDocumentData] fails, the handler sets the error to its
    message and resets its own in-flight flag: the input text, the results
    (classification, summary and record), the history, the active tab, the
    other flags, the store and the list of remote calls are left as they
    were.  The same holds when [extractDocumentData] throws before it
    reaches the remote call. *)
Theorem C9_failed_stage_keeps_the_session (w : World) (closure : State)
    (reply : RemoteReply) (message : jsstring) :
  (exists stage o e,
      inflight w = Some (SummarizePending closure stage)
      /\ reply = ChatReply o
      /\ TextAnalysis.settle stage o = Rejected e
      /\ message
         = lit "An error occurred during document summarization. Please try again.")
  \/ (exists stage o e,
      inflight w = Some (ExtractPending closure stage)
      /\ reply = ExtractorReply o
      /\ TextAnalysis.settle stage o = Rejected e
      /\ message
         = lit "An error occurred during data extraction. Please try again.") ->
  let s := component w in
  let w' := step w (Reply reply) in
  (inputText (component w') = inputText s
   /\ results (component w') = results s
   /\ history (component w') = history s
   /\ activeTab (component w') = activeTab s
   /\ isDetectingType (component w') = isDetectingType s
   /\ error (component w') = Some message)
  /\ (component w' = setIsSummarizing false (setError (Some message) s)
      \/ component w' = setIsExtractingData false (setError (Some message) s))
  /\ (inflight w' = None
      /\ localStorage w' = localStorage w
      /\ network w' = network w)
  /\ (forall s0 detected e,
        classification s0 = Some detected ->
        TextAnalysis.extractDocumentData (inputText s0)
          (TextAnalysis.documentType detected) = TextAnalysis.Throws e ->
        handleExtractDocumentData s0
        = done (setIsExtractingData false
                  (setError
                     (Some (lit "An error occurred during data extraction. Please try again."))
                     (setIsExtractingData true (setError None s0))))).
Proof.
  intros H s w'. subst s w'.
  assert (Hthrow : forall s0 detected e,
        classification s0 = Some detected ->
        TextAnalysis.extractDocumentData (inputText s0)
          (TextAnalysis.documentType detected) = TextAnalysis.Throws e ->
        handleExtractDocumentData s0
        = done (setIsExtractingData false
                  (setError
                     (Some (lit "An error occurred during data extraction. Please try again."))
                     (setIsExtractingData true (setError None s0))))).
  { intros s0 detected e Hc He. unfold handleExtractDocumentData.
    rewrite Hc, He. reflexivity. }
  destruct H as [(stage & o & e & Hp & -> & Hs & ->)
                |(stage & o & e & Hp & -> & Hs & ->)];
    unfold step; cbv zeta; rewrite Hp; unfold resume; rewrite Hs; simpl;
    rewrite app_nil_r.
  - repeat split; auto.
  - repeat split; auto.
Qed.

Lemma C9_witness :
  let w' := step Samples.summarizing (Reply (ChatReply (Rejected Samples.timeout))) in
  results (component w') = results (component Samples.summarizing)
  /\ inputText (component w') = Samples.rekins
  /\ error (component w')
     = Some (lit "An error occurred during document summarization. Please try again.").
Proof.
  intros w'.
  destruct (@C9_failed_stage_keeps_the_session Samples.summarizing
              (component (run boot (Samples.oneDetection Samples.rekins)))
              (ChatReply (Rejected Samples.timeout))
              (lit "An error occurred during document summarization. Please try again."))
    as ((Ht & Hr & _ & _ & _ & He) & _).
  - left.
    exists (TextAnalysis.summarizeDocument Samples.rekins (lit "invoice")),
           (Rejected Samples.timeout), Samples.timeout.
    repeat split.
  - split; [exact Hr|]. split; [exact Ht | exact He].
Defined.

(** C10.  Clear History sets the in-memory list to empty and the effect that
    saves the history, run on the empty list, writes nothing: the store is
    left as it was, whatever it holds.  The entries it held are the history
    of the component after the next mount. *)
Theorem C10_clear_history_keeps_the_store (w : World) :
  let w' := call w (doneWithHistory (clearHistory (component w))) in
  history (component w') = []
  /\ localStorage w' = localStorage w
  /\ (forall stored, saveHistory [] stored = stored)
  /\ (inputTabShown (component w) && historyShown (component w) = true ->
      step w ClickClearHistory = w')
  /\ (forall h,
        localStorage w = Some (Serialized h) ->
        history (component (step w' Reload)) = h
        /\ localStorage (step w' Reload) = Some (Serialized h)).
Proof.
  cbv zeta. split; [reflexivity|]. split; [reflexivity|].
  split; [reflexivity|]. split.
  - intros Hshown. unfold step. cbv zeta. now rewrite Hshown.
  - intros h Hstored. unfold step, mount, call. simpl.
    change (saveHistory [] (localStorage w)) with (localStorage w).
    rewrite Hstored. simpl. split; [reflexivity|].
    unfold saveHistory. now destruct (Nat.ltb 0 (List.length h)).
Qed.

Lemma C10_witness :
  let w := run boot (Samples.oneDetection Samples.rekins) in
  let w' := step w ClickClearHistory in
  history (component w') = []
  /\ history (component (step w' Reload))
     = [ {| text := Samples.rekins; timestamp := 260 |} ].
Proof.
  intros w w'.
  destruct (C10_clear_history_keeps_the_store w) as (Hh & _ & _ & Hstep & Hload).
  subst w'. rewrite (Hstep eq_refl).
  split; [exact Hh|].
  exact (proj1 (Hload _ eq_refl)).
Defined.

(* ------------------------------------------------------------------ *)
(** ** The history stays bounded and ordered *)

Lemma Forall_firstn {A : Type} (P : A -> Prop) (n : nat) (l : list A) :
  Forall P l -> Forall P (firstn n l).
Proof.
  intros H. revert n. induction H as [|x l Hx Hl IH]; intros [|n]; simpl;
    constructor; auto.
Qed.

Lemma recentFirst_firstn (n : nat) (h : list HistoryItem) :
  recentFirst h -> recentFirst (firstn n h).
Proof.
  revert n. induction h as [|e h IH]; intros [|n]; simpl; auto.
  intros [Hall Hrest]. split; [now apply Forall_firstn | now apply IH].
Qed.

Lemma kept_nil (now : N) : kept now [].
Proof. unfold kept. simpl. repeat split; [lia | constructor]. Qed.

Lemma kept_later (now later : N) (h : list HistoryItem) :
  (now <= later)%N -> kept now h -> kept later h.
Proof.
  intros Hle (Hlen & Hrf & Hall). repeat split; auto.
  eapply Forall_impl; [|exact Hall]. simpl. intros e He. lia.
Qed.

Lemma kept_newHistory (now : N) (t : jsstring) (h : list HistoryItem) :
  kept now h -> kept now (newHistory (historyEntry t now) h).
Proof.
  intros (Hlen & Hrf & Hall). unfold newHistory, slice0. split; [|split].
  - rewrite length_firstn. lia.
  - apply recentFirst_firstn. simpl. split; [exact Hall | exact Hrf].
  - apply Forall_firstn. constructor; [simpl; lia | exact Hall].
Qed.

Lemma done_kept (now : N) (s : State) :
  kept now (history s) -> reactionKept now (done s).
Proof. intros H. split; [exact H | exact I]. Qed.

Lemma await_kept {O A : Type} (now : N) (stage : TextAnalysis.Stage O A)
    (p : TextAnalysis.Stage O A -> Pending)
    (k : Outcome A -> State -> Reaction) (s : State) :
  (forall o, reactionKept now (k o s)) ->
  kept now (history s) ->
  kept now (history (closure (p stage))) ->
  reactionKept now (await stage p k s).
Proof.
  intros Hk Hs Hp. destruct stage as [e|c resume]; simpl.
  - apply Hk.
  - split; [exact Hs | exact Hp].
Qed.

Lemma detectSettled_kept (now : N) (render : State)
    (o : Outcome TextAnalysis.DocumentTypeResult) (s : State) :
  kept now (history render) -> kept now (history s) ->
  reactionKept now (detectSettled render now o s).
Proof.
  intros Hr Hs. destruct o; (split; [simpl|exact I]).
  - now apply kept_newHistory.
  - exact Hs.
Qed.

Lemma summarizeSettled_kept (now : N) (render : State) (o : Outcome jsstring)
    (s : State) :
  kept now (history s) -> reactionKept now (summarizeSettled render o s).
Proof. intros Hs. destruct o; (split; [exact Hs | exact I]). Qed.

Lemma extractSettled_kept (now : N) (render : State) (o : Outcome Json)
    (s : State) :
  kept now (history s) -> reactionKept now (extractSettled render o s).
Proof. intros Hs. destruct o; (split; [exact Hs | exact I]). Qed.

Lemma processAllFailed_kept (now : N) (s : State) :
  kept now (history s) -> reactionKept now (processAllFailed s).
Proof. intros Hs. split; [exact Hs | exact I]. Qed.

Lemma processAllExtracted_kept (now : N) (render : State) (o : Outcome Json)
    (s : State) :
  kept now (history render) -> kept now (history s) ->
  reactionKept now (processAllExtracted render now o s).
Proof.
  intros Hr Hs. destruct o; [split; [simpl|exact I]|].
  - now apply kept_newHistory.
  - now apply processAllFailed_kept.
Qed.

Lemma processAllSummarized_kept (now : N) (render : State)
    (detected : TextAnalysis.DocumentTypeResult) (o : Outcome jsstring) (s : State) :
  kept now (history render) -> kept now (history s) ->
  reactionKept now (processAllSummarized render detected now o s).
Proof.
  intros Hr Hs. destruct o; [|now apply processAllFailed_kept].
  unfold processAllSummarized. apply await_kept; auto.
  intros o. now apply processAllExtracted_kept.
Qed.

Lemma processAllDetected_kept (now : N) (render : State)
    (o : Outcome TextAnalysis.DocumentTypeResult) (s : State) :
  kept now (history render) -> kept now (history s) ->
  reactionKept now (processAllDetected render now o s).
Proof.
  intros Hr Hs. destruct o; [|now apply processAllFailed_kept].
  unfold processAllDetected. apply await_kept; auto.
  intros o. now apply processAllSummarized_kept.
Qed.

Lemma handleDetectDocumentType_kept (now : N) (s : State) :
  kept now (history s) -> reactionKept now (handleDetectDocumentType now s).
Proof.
  intros Hs. unfold handleDetectDocumentType.
  destruct (negb (truthy (trim (inputText s)))); [now apply done_kept|].
  apply await_kept; auto. intros o. now apply detectSettled_kept.
Qed.

Lemma handleSummarizeDocument_kept (now : N) (s : State) :
  kept now (history s) -> reactionKept now (handleSummarizeDocument s).
Proof.
  intros Hs. unfold handleSummarizeDocument.
  destruct (classification s); [|now apply done_kept].
  apply await_kept; auto. intros o. now apply summarizeSettled_kept.
Qed.

Lemma handleExtractDocumentData_kept (now : N) (s : State) :
  kept now (history s) -> reactionKept now (handleExtractDocumentData s).
Proof.
  intros Hs. unfold handleExtractDocumentData.
  destruct (classification s); [|now apply done_kept].
  apply await_kept; auto. intros o. now apply extractSettled_kept.
Qed.

Lemma handleProcessAll_kept (now : N) (s : State) :
  kept now (history s) -> reactionKept now (handleProcessAll now s).
Proof.
  intros Hs. unfold handleProcessAll.
  destruct (negb (truthy (trim (inputText s)))); [now apply done_kept|].
  apply await_kept; auto. intros o. now apply processAllDetected_kept.
Qed.

Lemma resume_kept (p : Pending) (reply : RemoteReply) (now : N) (s : State)
    (r : Reaction) :
  kept now (history (closure p)) -> kept now (history s) ->
  resume p reply now s = Some r -> reactionKept now r.
Proof.
  intros Hp Hs. destruct p, reply; simpl; intros [= <-];
    auto using detectSettled_kept, summarizeSettled_kept, extractSettled_kept,
      processAllDetected_kept, processAllSummarized_kept, processAllExtracted_kept.
Qed.

Lemma saved_kept (now : N) (flag : bool) (s : State) (stored : option StoredValue) :
  kept now (history s) ->
  match stored with Some (Serialized h) => kept now h | _ => True end ->
  match saved flag s stored with Some (Serialized h) => kept now h | _ => True end.
Proof.
  intros Hs Hst. unfold saved, saveHistory.
  destruct flag; [|exact Hst].
  destruct (Nat.ltb 0 (List.length (history s))); [exact Hs | exact Hst].
Qed.

Lemma call_invariant (w : World) (r : Reaction) :
  invariant w -> reactionKept (clock w) r -> invariant (call w r).
Proof.
  intros (Hc & Hp & Hst) (Hn & Hsusp). unfold invariant, call. simpl.
  repeat split; try apply Hn.
  - destruct (suspended r); [exact Hsusp | exact Hp].
  - apply saved_kept; [exact Hn | exact Hst].
Qed.

Lemma continue_invariant (w : World) (r : Reaction) :
  invariant w -> reactionKept (clock w) r -> invariant (continue w r).
Proof.
  intros (Hc & Hp & Hst) (Hn & Hsusp). unfold invariant, continue. simpl.
  repeat split; try apply Hn.
  - exact Hsusp.
  - apply saved_kept; [exact Hn | exact Hst].
Qed.

Lemma render_invariant (w : World) (s : State) :
  invariant w -> history s = history (component w) -> invariant (render w s).
Proof.
  intros (Hc & Hp & Hst) Hh. unfold invariant, render. simpl.
  rewrite Hh. repeat split; try apply Hc; assumption.
Qed.

Lemma mount_invariant (stored : option StoredValue) (calls : list TextAnalysis.RemoteCall)
    (now : N) :
  match stored with Some (Serialized h) => kept now h | _ => True end ->
  invariant (mount stored calls now).
Proof.
  intros Hst. unfold invariant, mount. simpl.
  assert (Hh : kept now (history (loadHistory stored initialState))).
  { destruct stored as [[h|]|]; simpl; auto using kept_nil. }
  split; [exact Hh|]. split; [exact I|].
  unfold saveHistory.
  destruct (Nat.ltb 0 (List.length (history (loadHistory stored initialState))));
    [exact Hh | exact Hst].
Qed.

Lemma step_invariant (w : World) (e : Event) : invariant w -> invariant (step w e).
Proof.
  intros Hw. pose proof Hw as (Hc & Hp & Hst).
  destruct e; unfold step; cbv zeta.
  - destruct (inputTabShown (component w)); [now apply render_invariant | exact Hw].
  - destruct (_ && _); [|exact Hw].
    apply call_invariant; [exact Hw | now apply handleDetectDocumentType_kept].
  - destruct (_ && _); [|exact Hw].
    apply call_invariant; [exact Hw | now apply handleSummarizeDocument_kept].
  - destruct (_ && _); [|exact Hw].
    apply call_invariant; [exact Hw | now apply handleExtractDocumentData_kept].
  - destruct (_ && _); [|exact Hw].
    apply call_invariant; [exact Hw | now apply handleProcessAll_kept].
  - destruct (_ && _); [now apply render_invariant | exact Hw].
  - destruct (_ && _); [|exact Hw].
    apply call_invariant; [exact Hw|]. split; [apply kept_nil | exact I].
  - destruct (inputTabShown (component w)); [|exact Hw].
    destruct (nth_error (history (component w)) index);
      [now apply render_invariant | exact Hw].
  - destruct (_ && _); [exact Hw | now apply render_invariant].
  - destruct (resultsShown (component w)); [now apply render_invariant | exact Hw].
  - destruct (inflight w) as [p|] eqn:Ep; [|exact Hw].
    destruct (resume p reply (clock w) (component w)) as [r|] eqn:Er; [|exact Hw].
    apply continue_invariant; [exact Hw|].
    eapply resume_kept; [exact Hp | exact Hc | exact Er].
  - unfold invariant. simpl.
    assert (Hle : (clock w <= clock w + ms)%N) by lia.
    split; [|split].
    + eapply kept_later; [exact Hle | exact Hc].
    + destruct (inflight w); [|exact I].
      eapply kept_later; [exact Hle | exact Hp].
    + destruct (localStorage w) as [[h|]|]; try exact I.
      eapply kept_later; [exact Hle | exact Hst].
  - apply mount_invariant. exact Hst.
Qed.

Lemma run_invariant (events : list Event) (w : World) :
  invariant w -> invariant (run w events).
Proof.
  revert w. induction events as [|e events IH]; intros w Hw; simpl; [exact Hw|].
  apply IH. now apply step_invariant.
Qed.

Lemma boot_invariant : invariant boot.
Proof. apply mount_invariant. exact I. Qed.

(** With 5 entries kept most recent first, the entry that [newHistory] drops
    is the last one, and no entry that stays is older than it. *)
Lemma newHistory_evicts_oldest (entry : HistoryItem) (h : list HistoryItem) :
  List.length h = 5 -> recentFirst h ->
  exists stay oldest,
    h = (stay ++ [oldest])%list
    /\ newHistory entry h = entry :: stay
    /\ Forall (fun e => (timestamp oldest <= timestamp e)%N) stay.
Proof.
  intros Hlen Hrf.
  destruct h as [|a [|b [|c [|d [|e [|f h]]]]]]; try discriminate.
  exists [a; b; c; d], e. split; [reflexivity|]. split; [reflexivity|].
  simpl in Hrf.
  destruct Hrf as (Ha & Hb & Hc & Hd & _).
  repeat match goal with
         | H : Forall _ (_ :: _) |- _ => inversion H; subst; clear H
         end.
  repeat constructor; assumption.
Qed.

(** C4.  After any sequence of events from a first visit, the history of the
    component and the stored history have at most 5 entries and are ordered
    most recent first (no entry is older than one that follows it); and when
    the history holds 5 entries, adding one keeps the four most recent and
    drops the last, than which no entry that stays is older. *)
Theorem C4_history_is_bounded_and_recent_first (events : list Event) :
  let w := run boot events in
  (List.length (history (component w)) <= 5 /\ recentFirst (history (component w)))
  /\ (forall stored,
        localStorage w = Some (Serialized stored) ->
        List.length stored <= 5 /\ recentFirst stored)
  /\ (forall entry,
        List.length (history (component w)) = 5 ->
        exists stay oldest,
          history (component w) = (stay ++ [oldest])%list
          /\ newHistory entry (history (component w)) = entry :: stay
          /\ Forall (fun e => (timestamp oldest <= timestamp e)%N) stay).
Proof.
  intros w. destruct (run_invariant events boot_invariant) as (Hc & _ & Hst).
  fold w in Hc, Hst. destruct Hc as (Hlen & Hrf & _).
  split; [split; assumption|]. split.
  - intros stored Hs. rewrite Hs in Hst. destruct Hst as (Hl & Hr & _). now split.
  - intros entry H5. now apply newHistory_evicts_oldest.
Qed.

(** After five detections the history is full; a sixth entry evicts the
    oldest one. *)
Lemma C4_witness :
  let w := run boot Samples.fiveDetections in
  let sixth := historyEntry (lit "f") 2000 in
  List.length (history (component w)) = 5
  /\ exists stay oldest,
       history (component w) = (stay ++ [oldest])%list
       /\ newHistory sixth (history (component w)) = sixth :: stay
       /\ Forall (fun e => (timestamp oldest <= timestamp e)%N) stay.
Proof.
  intros w sixth. split; [reflexivity|].
  destruct (C4_history_is_bounded_and_recent_first Samples.fiveDetections)
    as (_ & _ & Hevict).
  apply Hevict. reflexivity.
Defined.

(* ------------------------------------------------------------------ *)
(** ** One stage at a time *)

Import Discipline.

Ltac flag_cases s H :=
  destruct s as [t d sm ex res err hist tab]; unfold flags in *; simpl in *;
  destruct H as (-> & -> & ->).

Lemma awaited_idle (p : option Pending) (s : State) :
  awaited p s -> busy s = false -> p = None.
Proof.
  unfold busy. destruct p as [[]|]; simpl; unfold flags; intros (-> & -> & ->);
    simpl; congruence.
Qed.

Lemma awaited_busy (p : Pending) (s : State) : awaited (Some p) s -> busy s = true.
Proof.
  unfold busy. destruct p; simpl; unfold flags; intros (-> & -> & ->); reflexivity.
Qed.

Lemma awaited_same_flags (p : option Pending) (s s' : State) :
  isDetectingType s' = isDetectingType s ->
  isSummarizing s' = isSummarizing s ->
  isExtractingData s' = isExtractingData s ->
  awaited p s -> awaited p s'.
Proof.
  intros Hd Hs He. destruct p as [[]|]; simpl; unfold flags;
    rewrite Hd, Hs, He; auto.
Qed.

Lemma detectSettled_awaited (render : State) (now : N)
    (o : Outcome TextAnalysis.DocumentTypeResult) (s : State) :
  flags true false false s ->
  awaited (suspended (detectSettled render now o s)) (next (detectSettled render now o s)).
Proof. intros H. flag_cases s H. destruct o; simpl; repeat split. Qed.

Lemma summarizeSettled_awaited (render : State) (o : Outcome jsstring) (s : State) :
  flags false true false s ->
  awaited (suspended (summarizeSettled render o s)) (next (summarizeSettled render o s)).
Proof. intros H. flag_cases s H. destruct o; simpl; repeat split. Qed.

Lemma extractSettled_awaited (render : State) (o : Outcome Json) (s : State) :
  flags false false true s ->
  awaited (suspended (extractSettled render o s)) (next (extractSettled render o s)).
Proof. intros H. flag_cases s H. destruct o; simpl; repeat split. Qed.

Lemma processAllExtracted_awaited (render : State) (now : N) (o : Outcome Json)
    (s : State) :
  awaited (suspended (processAllExtracted render now o s))
          (next (processAllExtracted render now o s)).
Proof. destruct o; simpl; repeat split. Qed.

Lemma processAllSummarized_awaited (render : State)
    (detected : TextAnalysis.DocumentTypeResult) (now : N) (o : Outcome jsstring)
    (s : State) :
  flags false true false s ->
  awaited (suspended (processAllSummarized render detected now o s))
          (next (processAllSummarized render detected now o s)).
Proof.
  intros H. flag_cases s H. destruct o; simpl; [|repeat split].
  destruct (TextAnalysis.extractDocumentData _ _); simpl; repeat split.
Qed.

Lemma processAllDetected_awaited (render : State) (now : N)
    (o : Outcome TextAnalysis.DocumentTypeResult) (s : State) :
  flags true false false s ->
  awaited (suspended (processAllDetected render now o s))
          (next (processAllDetected render now o s)).
Proof. intros H. flag_cases s H. destruct o; simpl; repeat split. Qed.

Lemma resume_awaited (p : Pending) (reply : RemoteReply) (now : N) (s : State)
    (r : Reaction) :
  awaited (Some p) s -> resume p reply now s = Some r ->
  awaited (suspended r) (next r).
Proof.
  destruct p, reply; simpl; intros Hf [= <-];
    auto using detectSettled_awaited, summarizeSettled_awaited,
      extractSettled_awaited, processAllDetected_awaited,
      processAllSummarized_awaited, processAllExtracted_awaited.
Qed.

Lemma handler_awaited (s : State) (now : N) (r : Reaction) :
  flags false false false s ->
  In r [ handleDetectDocumentType now s; handleSummarizeDocument s;
         handleExtractDocumentData s; handleProcessAll now s ] ->
  awaited (suspended r) (next r).
Proof.
  intros H Hin. flag_cases s H. simpl in Hin.
  destruct Hin as [<-|[<-|[<-|[<-|[]]]]].
  - unfold handleDetectDocumentType. simpl.
    destruct (negb (truthy (trim t))); simpl; repeat split.
  - unfold handleSummarizeDocument, classification. simpl.
    destruct res as [[[c|] ? ?]|]; simpl; repeat split.
  - unfold handleExtractDocumentData, classification. simpl.
    destruct res as [[[c|] ? ?]|]; simpl; try (repeat split; fail).
    destruct (TextAnalysis.extractDocumentData _ _); simpl; repeat split.
  - unfold handleProcessAll. simpl.
    destruct (negb (truthy (trim t))); simpl; repeat split.
Qed.

Lemma busy_flags (s : State) : busy s = false -> flags false false false s.
Proof.
  unfold busy, flags.
  destruct (isDetectingType s), (isSummarizing s), (isExtractingData s);
    simpl; intros; try discriminate; repeat split.
Qed.

Lemma call_awaited (w : World) (r : Reaction) :
  awaited (inflight w) (component w) ->
  busy (component w) = false ->
  awaited (suspended r) (next r) ->
  awaited (inflight (call w r)) (component (call w r)).
Proof.
  intros Hw Hidle Hr. simpl. rewrite (awaited_idle _ _ Hw Hidle).
  destruct (suspended r); exact Hr.
Qed.

Lemma enabled_idle (shown disabled : bool) (s : State) :
  shown && negb (busy s || disabled) = true -> busy s = false.
Proof. destruct shown, (busy s); simpl; congruence. Qed.

Lemma step_awaited (w : World) (e : Event) :
  awaited (inflight w) (component w) ->
  awaited (inflight (step w e)) (component (step w e)).
Proof.
  intros Hw. destruct e; unfold step; cbv zeta.
  - destruct (inputTabShown _); [|exact Hw].
    simpl. eapply awaited_same_flags; [..|exact Hw]; reflexivity.
  - destruct (_ && _) eqn:E; [|exact Hw].
    apply enabled_idle in E.
    apply call_awaited; auto.
    apply (@handler_awaited (component w) (clock w));
      [now apply busy_flags | simpl; auto].
  - destruct (_ && _) eqn:E; [|exact Hw].
    apply enabled_idle in E.
    apply call_awaited; auto.
    apply (@handler_awaited (component w) (clock w));
      [now apply busy_flags | simpl; auto].
  - destruct (_ && _) eqn:E; [|exact Hw].
    apply enabled_idle in E.
    apply call_awaited; auto.
    apply (@handler_awaited (component w) (clock w));
      [now apply busy_flags | simpl; auto].
  - destruct (_ && _) eqn:E; [|exact Hw].
    apply enabled_idle in E.
    apply call_awaited; auto.
    apply (@handler_awaited (component w) (clock w));
      [now apply busy_flags | simpl; auto 6].
  - destruct (_ && _); [|exact Hw].
    simpl. eapply awaited_same_flags; [..|exact Hw]; reflexivity.
  - destruct (_ && _); [|exact Hw].
    simpl. eapply awaited_same_flags; [..|exact Hw]; reflexivity.
  - destruct (inputTabShown _); [|exact Hw].
    destruct (nth_error _ _); [|exact Hw].
    simpl. eapply awaited_same_flags; [..|exact Hw]; reflexivity.
  - destruct (_ && _); [exact Hw|].
    simpl. eapply awaited_same_flags; [..|exact Hw]; reflexivity.
  - destruct (resultsShown _); [|exact Hw].
    simpl. eapply awaited_same_flags; [..|exact Hw]; reflexivity.
  - destruct (inflight w) as [p|] eqn:Ep; [|rewrite Ep; exact Hw].
    destruct (resume p reply (clock w) (component w)) as [r|] eqn:Er;
      [|rewrite Ep; exact Hw].
    simpl. eapply resume_awaited; eauto.
  - exact Hw.
  - simpl. destruct (localStorage w) as [[h|]|]; repeat split.
Qed.

Lemma run_awaited (events : list Event) (w : World) :
  awaited (inflight w) (component w) ->
  awaited (inflight (run w events)) (component (run w events)).
Proof.
  revert w. induction events as [|e events IH]; intros w Hw; simpl; [exact Hw|].
  apply IH. now apply step_awaited.
Qed.

Lemma boot_awaited : awaited (inflight boot) (component boot).
Proof. repeat split. Qed.

(** X1.  After any sequence of events from a first visit, the in-flight
    flags tell which stage is awaited: exactly one flag is set, that of the
    awaited stage, while a handler is suspended on a remote call, and none
    is set otherwise.  So the page is busy exactly when a call is in
    flight. *)
Theorem X1_flags_follow_the_awaited_stage (events : list Event) :
  let w := run boot events in
  awaited (inflight w) (component w)
  /\ (busy (component w) = true <-> inflight w <> None).
Proof.
  intros w. pose proof (run_awaited events boot boot_awaited) as Hw. fold w in Hw.
  split; [exact Hw|]. split.
  - intros Hb Hnone. rewrite Hnone in Hw. simpl in Hw.
    destruct Hw as (Hd & Hs & He). unfold busy in Hb.
    rewrite Hd, Hs, He in Hb. discriminate.
  - destruct (inflight w) as [p|]; [|congruence].
    intros _. now apply awaited_busy with p.
Qed.

Lemma X1_witness :
  inflight Samples.detecting <> None
  /\ busy (component Samples.detecting) = true
  /\ flags true false false (component Samples.detecting).
Proof.
  destruct (X1_flags_follow_the_awaited_stage [TypeText Samples.rekins; ClickDetect])
    as (Hflags & Hbusy).
  assert (H : inflight Samples.detecting <> None) by (vm_compute; discriminate).
  split; [exact H|]. split; [exact (proj2 Hbusy H) | exact Hflags].
Defined.

(** X2.  After any sequence of events from a first visit, while a remote
    call is in flight a click on Detect, Summarize, Extract, Process All or
    Clear changes nothing: no second stage is started and the session cannot
    be cleared under a suspended handler. *)
Theorem X2_no_second_stage_while_in_flight (events : list Event) (e : Event) :
  let w := run boot events in
  inflight w <> None ->
  In e (ClickClear :: stageClicks) ->
  step w e = w.
Proof.
  intros w Hin He.
  pose proof (run_awaited events boot boot_awaited) as Hw. fold w in Hw.
  assert (Hb : busy (component w) = true).
  { destruct (inflight w) as [p|]; [now apply awaited_busy with p | congruence]. }
  simpl in He.
  destruct He as [<-|[<-|[<-|[<-|[<-|[]]]]]]; unfold step; cbv zeta;
    unfold clearDisabled, detectDisabled, summarizeDisabled, extractDisabled,
      processAllDisabled;
    rewrite Hb; simpl; now rewrite andb_false_r.
Qed.

Lemma X2_witness :
  inflight Samples.detecting <> None
  /\ step Samples.detecting ClickProcessAll = Samples.detecting
  /\ step Samples.detecting ClickClear = Samples.detecting.
Proof.
  assert (H : inflight Samples.detecting <> None) by (vm_compute; discriminate).
  split; [exact H|]. split.
  - apply (@X2_no_second_stage_while_in_flight
             [TypeText Samples.rekins; ClickDetect] ClickProcessAll H).
    simpl. auto 6.
  - apply (@X2_no_second_stage_while_in_flight
             [TypeText Samples.rekins; ClickDetect] ClickClear H).
    simpl. auto.
Defined.

Lemma resume_issues_at_most_one (p : Pending) (reply : RemoteReply) (now : N)
    (s : State) (r : Reaction) :
  resume p reply now s = Some r -> List.length (issued r) <= 1.
Proof.
  destruct p, reply; simpl; intros [= <-];
    unfold detectSettled, summarizeSettled, extractSettled, processAllDetected,
      processAllSummarized, processAllExtracted, processAllFailed;
    repeat match goal with
           | |- context [TextAnalysis.settle ?st ?o] =>
               destruct (TextAnalysis.settle st o)
           end;
    simpl; try lia;
    destruct (TextAnalysis.extractDocumentData _ _); simpl; lia.
Qed.

Lemma handler_issues_at_most_one (s : State) (now : N) (r : Reaction) :
  In r [ handleDetectDocumentType now s; handleSummarizeDocument s;
         handleExtractDocumentData s; handleProcessAll now s ] ->
  List.length (issued r) <= 1.
Proof.
  simpl. intros [<-|[<-|[<-|[<-|[]]]]].
  - unfold handleDetectDocumentType.
    destruct (negb (truthy (trim (inputText s)))); simpl; lia.
  - unfold handleSummarizeDocument. destruct (classification s); simpl; lia.
  - unfold handleExtractDocumentData. destruct (classification s); simpl; [|lia].
    destruct (TextAnalysis.extractDocumentData _ _); simpl; lia.
  - unfold handleProcessAll.
    destruct (negb (truthy (trim (inputText s)))); simpl; lia.
Qed.

(** X3.  Whatever the state, one event makes the page issue at most one
    remote call, appended to those issued before; only a click on one of the
    four stage buttons or the settlement of the call in flight can issue
    one.  Typing, Clear, Clear History, loading a recent input, changing tab,
    the passing of time and a reload issue none. *)
Theorem X3_one_event_issues_at_most_one_call (w : World) (e : Event) :
  exists calls,
    network (step w e) = (network w ++ calls)%list
    /\ List.length calls <= 1
    /\ (mayCall e = false -> calls = []).
Proof.
  assert (Hnone : exists calls, network w = (network w ++ calls)%list
                    /\ List.length calls <= 1 /\ (mayCall e = false -> calls = [])).
  { exists []. rewrite app_nil_r. simpl. repeat split; lia. }
  assert (Hcall : forall r, mayCall e = true -> List.length (issued r) <= 1 ->
            exists calls, network (call w r) = (network w ++ calls)%list
              /\ List.length calls <= 1 /\ (mayCall e = false -> calls = [])).
  { intros r He Hr. exists (issued r). repeat split; [exact Hr | congruence]. }
  assert (Hhandler : forall r,
            In r [ handleDetectDocumentType (clock w) (component w);
                   handleSummarizeDocument (component w);
                   handleExtractDocumentData (component w);
                   handleProcessAll (clock w) (component w) ] ->
            mayCall e = true ->
            exists calls, network (call w r) = (network w ++ calls)%list
              /\ List.length calls <= 1 /\ (mayCall e = false -> calls = [])).
  { intros r Hin He. apply Hcall; [exact He|].
    now apply (@handler_issues_at_most_one (component w) (clock w)). }
  destruct e; unfold step; cbv zeta.
  - destruct (inputTabShown _); exact Hnone.
  - destruct (_ && _); [|exact Hnone]. apply Hhandler; simpl; auto.
  - destruct (_ && _); [|exact Hnone]. apply Hhandler; simpl; auto.
  - destruct (_ && _); [|exact Hnone]. apply Hhandler; simpl; auto.
  - destruct (_ && _); [|exact Hnone]. apply Hhandler; simpl; auto 6.
  - destruct (_ && _); exact Hnone.
  - destruct (_ && _); [|exact Hnone].
    exists []. simpl. repeat split; lia.
  - destruct (inputTabShown _); [|exact Hnone].
    destruct (nth_error _ _); exact Hnone.
  - destruct (_ && _); exact Hnone.
  - destruct (resultsShown _); exact Hnone.
  - destruct (inflight w) as [p|]; [|exact Hnone].
    destruct (resume p reply (clock w) (component w)) as [r|] eqn:Er;
      [|exact Hnone].
    exists (issued r). repeat split; [|simpl; congruence].
    eapply resume_issues_at_most_one; eauto.
  - exact Hnone.
  - exact Hnone.
Qed.

Lemma X3_witness :
  network (step Samples.detecting ClickClearHistory) = network Samples.detecting
  /\ network (step Samples.detecting (TypeText (lit "x"))) = network Samples.detecting.
Proof.
  destruct (X3_one_event_issues_at_most_one_call Samples.detecting ClickClearHistory)
    as (c1 & H1 & _ & Z1).
  destruct (X3_one_event_issues_at_most_one_call Samples.detecting (TypeText (lit "x")))
    as (c2 & H2 & _ & Z2).
  rewrite H1, H2, (Z1 eq_refl), (Z2 eq_refl), app_nil_r. split; reflexivity.
Defined.

(* ------------------------------------------------------------------ *)
(** ** The store mirrors the history *)

Lemma newHistory_nonempty (entry : HistoryItem) (h : list HistoryItem) :
  newHistory entry h <> [].
Proof. unfold newHistory, slice0. simpl. discriminate. Qed.

Lemma await_recorded {O A : Type} (stage : TextAnalysis.Stage O A)
    (p : TextAnalysis.Stage O A -> Pending)
    (k : Outcome A -> State -> Reaction) (s : State) :
  (forall o, recorded (history s) (k o s)) ->
  recorded (history s) (await stage p k s).
Proof.
  intros Hk. destruct stage as [e|c resume]; simpl; [apply Hk|].
  left. split; reflexivity.
Qed.

Ltac await_recorded_at :=
  match goal with
  | |- recorded _ (await ?st ?p ?k ?s') =>
      change (recorded (history s') (await st p k s')); apply await_recorded
  end.

Lemma detectSettled_recorded (render : State) (now : N)
    (o : Outcome TextAnalysis.DocumentTypeResult) (s : State) :
  recorded (history s) (detectSettled render now o s).
Proof.
  destruct o; [right|left]; simpl; split; auto using newHistory_nonempty.
Qed.

Lemma processAllFailed_recorded (s : State) : recorded (history s) (processAllFailed s).
Proof. left. split; reflexivity. Qed.

Lemma processAllExtracted_recorded (render : State) (now : N) (o : Outcome Json)
    (s : State) :
  recorded (history s) (processAllExtracted render now o s).
Proof.
  destruct o; [right|left]; simpl; split; auto using newHistory_nonempty.
Qed.

Lemma processAllSummarized_recorded (render : State)
    (detected : TextAnalysis.DocumentTypeResult) (now : N) (o : Outcome jsstring)
    (s : State) :
  recorded (history s) (processAllSummarized render detected now o s).
Proof.
  destruct o; [|apply processAllFailed_recorded].
  unfold processAllSummarized. await_recorded_at.
  intros o. apply processAllExtracted_recorded.
Qed.

Lemma processAllDetected_recorded (render : State) (now : N)
    (o : Outcome TextAnalysis.DocumentTypeResult) (s : State) :
  recorded (history s) (processAllDetected render now o s).
Proof.
  destruct o; [|apply processAllFailed_recorded].
  unfold processAllDetected. await_recorded_at.
  intros o. apply processAllSummarized_recorded.
Qed.

Lemma resume_recorded (p : Pending) (reply : RemoteReply) (now : N) (s : State)
    (r : Reaction) :
  resume p reply now s = Some r -> recorded (history s) r.
Proof.
  destruct p, reply; simpl; intros [= <-];
    auto using detectSettled_recorded, processAllDetected_recorded,
      processAllSummarized_recorded, processAllExtracted_recorded.
  - destruct (TextAnalysis.settle stage o); left; split; reflexivity.
  - destruct (TextAnalysis.settle stage o); left; split; reflexivity.
Qed.

Lemma handler_recorded (s : State) (now : N) (r : Reaction) :
  In r [ handleDetectDocumentType now s; handleSummarizeDocument s;
         handleExtractDocumentData s; handleProcessAll now s ] ->
  recorded (history s) r.
Proof.
  simpl. intros [<-|[<-|[<-|[<-|[]]]]].
  - unfold handleDetectDocumentType.
    destruct (negb (truthy (trim (inputText s)))); [left; split; reflexivity|].
    await_recorded_at. intros o. apply detectSettled_recorded.
  - unfold handleSummarizeDocument.
    destruct (classification s); [|left; split; reflexivity].
    await_recorded_at. intros [v|e]; left; split; reflexivity.
  - unfold handleExtractDocumentData.
    destruct (classification s); [|left; split; reflexivity].
    await_recorded_at. intros [v|e]; left; split; reflexivity.
  - unfold handleProcessAll.
    destruct (negb (truthy (trim (inputText s)))); [left; split; reflexivity|].
    await_recorded_at. intros o. apply processAllDetected_recorded.
Qed.

Lemma mirrored_same (w w' : World) :
  history (component w') = history (component w) ->
  localStorage w' = localStorage w ->
  mirrored w -> mirrored w'.
Proof. unfold mirrored. intros -> ->. auto. Qed.

Lemma saveHistory_nonempty (h : list HistoryItem) (stored : option StoredValue) :
  h <> [] -> saveHistory h stored = Some (Serialized h).
Proof. destruct h; [congruence | reflexivity]. Qed.

Lemma recorded_mirrored (w w' : World) (r : Reaction) :
  recorded (history (component w)) r ->
  component w' = next r ->
  localStorage w' = saved (historySet r) (next r) (localStorage w) ->
  mirrored w -> mirrored w'.
Proof.
  intros [[Hf Hh]|[Hf Hh]] Hc Hs Hw.
  - apply mirrored_same with w; [now rewrite Hc | now rewrite Hs, Hf | exact Hw].
  - unfold mirrored. rewrite Hs, Hf, Hc. simpl.
    rewrite (saveHistory_nonempty _ Hh). auto.
Qed.

Lemma step_mirrored (w : World) (e : Event) : mirrored w -> mirrored (step w e).
Proof.
  intros Hw.
  assert (Hhandler : forall r,
            In r [ handleDetectDocumentType (clock w) (component w);
                   handleSummarizeDocument (component w);
                   handleExtractDocumentData (component w);
                   handleProcessAll (clock w) (component w) ] ->
            mirrored (call w r)).
  { intros r Hin. apply recorded_mirrored with w r; auto.
    now apply (@handler_recorded (component w) (clock w)). }
  destruct e; unfold step; cbv zeta.
  - destruct (inputTabShown _); [|exact Hw]. now apply mirrored_same with w.
  - destruct (_ && _); [|exact Hw]. apply Hhandler; simpl; auto.
  - destruct (_ && _); [|exact Hw]. apply Hhandler; simpl; auto.
  - destruct (_ && _); [|exact Hw]. apply Hhandler; simpl; auto.
  - destruct (_ && _); [|exact Hw]. apply Hhandler; simpl; auto 6.
  - destruct (_ && _); [|exact Hw]. now apply mirrored_same with w.
  - destruct (_ && _); [|exact Hw].
    unfold mirrored in *. simpl.
    change (saveHistory [] (localStorage w)) with (localStorage w).
    destruct (localStorage w) as [[h|]|]; [|exact Hw|reflexivity].
    split; [apply Hw | now left].
  - destruct (inputTabShown _); [|exact Hw].
    destruct (nth_error _ _); [|exact Hw]. now apply mirrored_same with w.
  - destruct (_ && _); [exact Hw|]. now apply mirrored_same with w.
  - destruct (resultsShown _); [|exact Hw]. now apply mirrored_same with w.
  - destruct (inflight w) as [p|]; [|exact Hw].
    destruct (resume p reply (clock w) (component w)) as [r|] eqn:Er; [|exact Hw].
    apply recorded_mirrored with w r; auto.
    eapply resume_recorded; eauto.
  - now apply mirrored_same with w.
  - unfold mirrored in *. simpl.
    destruct (localStorage w) as [[h|]|]; simpl; [|exact Hw|reflexivity].
    destruct Hw as [Hne _]. rewrite (saveHistory_nonempty _ Hne). auto.
Qed.

Lemma run_mirrored (events : list Event) (w : World) :
  mirrored w -> mirrored (run w events).
Proof.
  revert w. induction events as [|e events IH]; intros w Hw; simpl; [exact Hw|].
  apply IH. now apply step_mirrored.
Qed.

(** X4.  After any sequence of events from a first visit, the store mirrors
    the history: nothing is stored while no entry has been recorded, what is
    stored is a non-empty list that [JSON.parse] reads back, and a non-empty
    history of the component is exactly the stored list, so that a reload
    shows the same history.  The history differs from the store only when
    it is empty, after Clear History. *)
Theorem X4_store_mirrors_the_history (events : list Event) :
  let w := run boot events in
  (localStorage w = None -> history (component w) = [])
  /\ (forall h, localStorage w = Some (Serialized h) ->
        h <> [] /\ (history (component w) = [] \/ history (component w) = h))
  /\ localStorage w <> Some Unparseable
  /\ (history (component w) <> [] ->
      localStorage w = Some (Serialized (history (component w)))
      /\ history (component (step w Reload)) = history (component w)).
Proof.
  intros w.
  assert (Hw : mirrored w) by (apply run_mirrored; reflexivity).
  unfold mirrored in Hw.
  destruct (localStorage w) as [[h|]|] eqn:Es; [|contradiction|].
  - destruct Hw as (Hne & Hh).
    split; [discriminate|]. split; [|split; [discriminate|]].
    + intros h' [= <-]. split; assumption.
    + intros Hne'. destruct Hh as [Hh|Hh]; [contradiction|].
      split; [now rewrite Hh|].
      unfold step, mount. rewrite Es. simpl. now rewrite Hh.
  - split; [intros _; exact Hw|]. split; [discriminate|].
    split; [discriminate|]. intros Hne. contradiction.
Qed.

Lemma X4_witness :
  let w := run boot Samples.fiveDetections in
  localStorage w = Some (Serialized (history (component w)))
  /\ history (component (step w Reload)) = history (component w).
Proof.
  intros w.
  destruct (X4_store_mirrors_the_history Samples.fiveDetections) as (_ & _ & _ & H).
  apply H. vm_compute. discriminate.
Defined.

(* ------------------------------------------------------------------ *)
(** ** The results tab always has results to show *)

Ltac tab_cases :=
  unfold resultsTabHasResults in *; simpl in *;
  first [ assumption | intros _; discriminate | intros; discriminate ].

Lemma resume_tab (p : Pending) (reply : RemoteReply) (now : N) (s : State)
    (r : Reaction) :
  resume p reply now s = Some r ->
  resultsTabHasResults s -> resultsTabHasResults (next r).
Proof.
  destruct p, reply; simpl; intros [= <-] H;
    unfold detectSettled, summarizeSettled, extractSettled, processAllDetected,
      processAllSummarized, processAllExtracted, processAllFailed;
    destruct (TextAnalysis.settle stage o); simpl; try tab_cases;
    destruct (TextAnalysis.extractDocumentData _ _); simpl; tab_cases.
Qed.

Lemma handler_tab (s : State) (now : N) (r : Reaction) :
  In r [ handleDetectDocumentType now s; handleSummarizeDocument s;
         handleExtractDocumentData s; handleProcessAll now s ] ->
  resultsTabHasResults s -> resultsTabHasResults (next r).
Proof.
  simpl. intros [<-|[<-|[<-|[<-|[]]]]] H.
  - unfold handleDetectDocumentType.
    destruct (negb (truthy (trim (inputText s)))); simpl; tab_cases.
  - unfold handleSummarizeDocument. destruct (classification s); simpl; tab_cases.
  - unfold handleExtractDocumentData. destruct (classification s); simpl;
      [|tab_cases].
    destruct (TextAnalysis.extractDocumentData _ _); simpl; tab_cases.
  - unfold handleProcessAll.
    destruct (negb (truthy (trim (inputText s)))); simpl; tab_cases.
Qed.

Lemma inputTab_not_results (s : State) :
  inputTabShown s = true -> activeTab s <> "results".
Proof.
  unfold inputTabShown. intros H. apply String.eqb_eq in H. rewrite H. discriminate.
Qed.

Lemma step_tab (w : World) (e : Event) :
  resultsTabHasResults (component w) -> resultsTabHasResults (component (step w e)).
Proof.
  intros Hw.
  assert (Hhandler : forall r,
            In r [ handleDetectDocumentType (clock w) (component w);
                   handleSummarizeDocument (component w);
                   handleExtractDocumentData (component w);
                   handleProcessAll (clock w) (component w) ] ->
            resultsTabHasResults (component (call w r))).
  { intros r Hin. simpl. now apply (@handler_tab (component w) (clock w)). }
  destruct e; unfold step; cbv zeta.
  - destruct (inputTabShown _); [|exact Hw]. exact Hw.
  - destruct (_ && _); [|exact Hw]. apply Hhandler; simpl; auto.
  - destruct (_ && _); [|exact Hw]. apply Hhandler; simpl; auto.
  - destruct (_ && _); [|exact Hw]. apply Hhandler; simpl; auto.
  - destruct (_ && _); [|exact Hw]. apply Hhandler; simpl; auto 6.
  - destruct (_ && _); [|exact Hw]. intros H. discriminate.
  - destruct (_ && _); [|exact Hw]. exact Hw.
  - destruct (inputTabShown _) eqn:E; [|exact Hw].
    destruct (nth_error _ _); [|exact Hw].
    intros H. simpl in H. now apply inputTab_not_results in E.
  - destruct (String.eqb value "results") eqn:Ev; simpl.
    + unfold resultsTabDisabled.
      destruct (results (component w)) eqn:Er; simpl; [|exact Hw].
      intros _. simpl. rewrite Er. discriminate.
    + intros H. simpl in H. apply String.eqb_neq in Ev. contradiction.
  - destruct (resultsShown _); [|exact Hw]. intros H. discriminate.
  - destruct (inflight w) as [p|]; [|exact Hw].
    destruct (resume p reply (clock w) (component w)) as [r|] eqn:Er; [|exact Hw].
    simpl. eapply resume_tab; eauto.
  - exact Hw.
  - simpl. destruct (localStorage w) as [[h|]|]; intros H; discriminate.
Qed.

(** X5.  After any sequence of events from a first visit, the results tab
    is active only when the session has results: the results pane, which
    renders nothing for absent results, is never shown empty. *)
Theorem X5_results_tab_has_results (events : list Event) :
  let w := run boot events in
  activeTab (component w) = "results" -> results (component w) <> None.
Proof.
  change (resultsTabHasResults (component (run boot events))).
  assert (H : forall evs w, resultsTabHasResults (component w) ->
                resultsTabHasResults (component (run w evs))).
  { induction evs as [|e evs IH]; intros w Hw; simpl; [exact Hw|].
    apply IH. now apply step_tab. }
  apply H. intros H0. discriminate.
Qed.

Lemma X5_witness :
  let w := run Samples.detecting
             [Reply (ClassifierReply (Resolved Samples.overconfident))] in
  activeTab (component w) = "results" /\ results (component w) <> None.
Proof.
  intros w. split; [reflexivity|].
  apply (X5_results_tab_has_results
           [ TypeText Samples.rekins; ClickDetect;
             Reply (ClassifierReply (Resolved Samples.overconfident)) ]).
  reflexivity.
Defined.

(* ------------------------------------------------------------------ *)
(** ** The text of a history entry *)

(** X6.  The text of a history entry never has more than 103 code units,
    and truncating is idempotent: the entry built from the text of an entry
    (a recent input loaded back and submitted again) has the same text. *)
Theorem X6_history_text_is_bounded_and_stable (t : jsstring) (now later : N) :
  List.length (text (historyEntry t now)) <= 103
  /\ List.length (text (historyEntry t now)) <= List.length t + 3
  /\ text (historyEntry (text (historyEntry t now)) later) = text (historyEntry t now).
Proof.
  assert (Htext : forall u n,
            text (historyEntry u n)
            = if Nat.ltb 100 (List.length u)
              then (firstn 100 u ++ lit "...")%list else u)
    by (intros; now rewrite historyEntry_text).
  rewrite !Htext.
  destruct (Nat.ltb 100 (List.length t)) eqn:E.
  - apply Nat.ltb_lt in E.
    set (u := (firstn 100 t ++ lit "...")%list).
    assert (Hlen : List.length u = 103).
    { unfold u. rewrite length_app, length_firstn, Nat.min_l by lia.
      reflexivity. }
    rewrite Hlen. split; [lia|]. split; [lia|].
    change (Nat.ltb 100 103) with true. cbv iota.
    unfold u at 1. rewrite firstn_app, length_firstn, Nat.min_l by lia.
    rewrite firstn_firstn, Nat.min_id, Nat.sub_diag.
    change (firstn 0 (lit "...")) with (@nil N). rewrite app_nil_r.
    reflexivity.
  - rewrite E. apply Nat.ltb_ge in E.
    split; [lia|]. split; [lia|]. reflexivity.
Qed.

(** X7.  After a successful detection the newest recent input, clicked on
    the input tab, puts the text of its entry back in the text area and
    resets the results and the error: the submitted text itself when it had
    at most 100 code units, else its first 100 code units and three dots. *)
Theorem X7_recent_input_round_trip (w : World) (closure : State)
    (stage : TextAnalysis.Stage TextAnalysis.DocumentTypeResult
                                TextAnalysis.DocumentTypeResult)
    (o : Outcome TextAnalysis.DocumentTypeResult)
    (detected : TextAnalysis.DocumentTypeResult) :
  inflight w = Some (DetectPending closure stage) ->
  TextAnalysis.settle stage o = Resolved detected ->
  let w' := run w [Reply (ClassifierReply o); SelectTab "input"; ClickRecent 0] in
  let t := inputText closure in
  inputText (component w')
    = (if Nat.ltb 100 (List.length t) then (firstn 100 t ++ lit "...")%list else t)
  /\ results (component w') = None
  /\ error (component w') = None
  /\ activeTab (component w') = "input"
  /\ hd_error (history (component w')) = Some (historyEntry t (clock w)).
Proof.
  intros Hp Hs w' t. subst w' t.
  assert (H1 : step w (Reply (ClassifierReply o))
               = continue w (detectSettled closure (clock w) (Resolved detected)
                               (component w))).
  { unfold step. cbv zeta. rewrite Hp. unfold resume. now rewrite Hs. }
  change (run w [Reply (ClassifierReply o); SelectTab "input"; ClickRecent 0])
    with (step (step (step w (Reply (ClassifierReply o))) (SelectTab "input"))
               (ClickRecent 0)).
  rewrite H1. unfold detectSettled.
  remember (historyEntry (inputText closure) (clock w)) as entry eqn:He.
  split; [|repeat (split; [reflexivity|]); reflexivity].
  change (text entry
          = if Nat.ltb 100 (List.length (inputText closure))
            then (firstn 100 (inputText closure) ++ lit "...")%list
            else inputText closure).
  now rewrite He, historyEntry_text.
Qed.

Lemma X7_witness :
  let w' := run Samples.detecting
              [ Reply (ClassifierReply (Resolved Samples.overconfident));
                SelectTab "input"; ClickRecent 0 ] in
  inputText (component w') = Samples.rekins /\ results (component w') = None.
Proof.
  intros w'.
  destruct (@X7_recent_input_round_trip Samples.detecting
              (component Discipline.typed)
              (TextAnalysis.detectDocumentType Samples.rekins)
              (Resolved Samples.overconfident) Samples.overconfident
              eq_refl eq_refl) as (Ht & Hr & _).
  split; [exact Ht | exact Hr].
Defined.

(** X8.  Clear History clicked while a detection (or the last stage of
    Process All) is in flight has no lasting effect: when the call succeeds
    the handler writes the list it closed over, with the new entry in front,
    to the component and to the store, exactly as if Clear History had not
    been clicked. *)
Theorem X8_clear_history_in_flight_is_undone (w : World) (closure : State)
    (reply : RemoteReply) :
  (exists stage o detected,
      inflight w = Some (DetectPending closure stage)
      /\ reply = ClassifierReply o
      /\ TextAnalysis.settle stage o = Resolved detected)
  \/ (exists detected stage o extracted,
      inflight w = Some (ProcessAllExtracting closure detected stage)
      /\ reply = ExtractorReply o
      /\ TextAnalysis.settle stage o = Resolved extracted) ->
  step (step w ClickClearHistory) (Reply reply) = step w (Reply reply)
  /\ history (component (step w (Reply reply)))
     = newHistory (historyEntry (inputText closure) (clock w)) (history closure).
Proof.
  intros H.
  assert (Hclear : step w ClickClearHistory = w
                   \/ step w ClickClearHistory
                      = call w (doneWithHistory (clearHistory (component w)))).
  { unfold step. cbv zeta. destruct (_ && _); auto. }
  destruct H as [(stage & o & detected & Hp & -> & Hs)
                |(detected & stage & o & extracted & Hp & -> & Hs)];
    (split;
     [ destruct Hclear as [->| ->]; [reflexivity|];
       unfold step; cbv zeta; simpl inflight; rewrite Hp; unfold resume;
       rewrite Hs; unfold continue, call; simpl; rewrite !app_nil_r;
       reflexivity
     | unfold step; cbv zeta; rewrite Hp; unfold resume; rewrite Hs;
       reflexivity ]).
Qed.

Lemma X8_witness :
  history (component (step (step classifiedSession ClickDetect) ClickClearHistory))
    = []
  /\ step (step classifiedSession ClickDetect) ClickClearHistory
     <> step classifiedSession ClickDetect
  /\ step (step (step classifiedSession ClickDetect) ClickClearHistory)
          (Reply (ClassifierReply (Resolved Samples.overconfident)))
     = step (step classifiedSession ClickDetect)
            (Reply (ClassifierReply (Resolved Samples.overconfident))).
Proof.
  split; [reflexivity|]. split.
  - intros H. apply (f_equal (fun w => history (component w))) in H.
    vm_compute in H. discriminate.
  - apply (@X8_clear_history_in_flight_is_undone
             (step classifiedSession ClickDetect) (component classifiedSession)).
    left.
    exists (TextAnalysis.detectDocumentType Samples.rekins),
           (Resolved Samples.overconfident), Samples.overconfident.
    repeat split.
Defined.

(* ------------------------------------------------------------------ *)
(** ** Which texts pass the validation *)

Lemma existsb_rev_visible (f : N -> bool) (l : jsstring) :
  existsb f (rev l) = true <-> existsb f l = true.
Proof.
  rewrite !existsb_exists. split; intros (x & Hin & Hx); exists x; split; auto;
    now apply in_rev in Hin || (apply in_rev; rewrite rev_involutive).
Qed.

Lemma trimStart_keeps_visible (l : jsstring) :
  existsb (fun c => negb (isTrimmed c)) l = true ->
  existsb (fun c => negb (isTrimmed c)) (trimStart l) = true.
Proof.
  induction l as [|c l IH]; simpl; [discriminate|].
  destruct (isTrimmed c) eqn:E; simpl; [exact IH|].
  intros _. now rewrite E.
Qed.

Lemma trim_visible (t : jsstring) :
  existsb (fun c => negb (isTrimmed c)) t = true -> truthy (trim t) = true.
Proof.
  intros H. unfold trim, trimEnd.
  apply trimStart_keeps_visible in H.
  apply existsb_rev_visible in H.
  apply trimStart_keeps_visible in H.
  apply existsb_rev_visible in H.
  destruct (rev (trimStart (rev (trimStart t)))); [discriminate | reflexivity].
Qed.

Lemma blank_or_visible (t : jsstring) :
  forallb isTrimmed t = negb (existsb (fun c => negb (isTrimmed c)) t).
Proof.
  induction t as [|c t IH]; simpl; [reflexivity|].
  rewrite IH. now destruct (isTrimmed c).
Qed.

(** X9.  A text passes the validation of Detect and Process All exactly
    when it has a code unit that [trim] does not strip.  For such a text
    both handlers clear the error, set the detecting flag and issue one call
    on the detection chain that carries the whole text, untrimmed; for any
    other text they issue none. *)
Theorem X9_visible_text_is_sent_whole (now : N) (s : State) :
  let visible := existsb (fun c => negb (isTrimmed c)) (inputText s) in
  let sent :=
    if visible
    then [TextAnalysis.invoke TextAnalysis.documentTypeDetectionChain
            [("text", inputText s)]]
    else [] in
  truthy (trim (inputText s)) = visible
  /\ issued (handleDetectDocumentType now s) = sent
  /\ issued (handleProcessAll now s) = sent
  /\ next (handleDetectDocumentType now s)
     = (if visible then setIsDetectingType true (setError None s)
        else setError (Some (lit "Please enter some text to analyze")) s)
  /\ next (handleProcessAll now s) = next (handleDetectDocumentType now s).
Proof.
  intros visible sent. subst sent.
  assert (Ht : truthy (trim (inputText s)) = visible).
  { subst visible.
    destruct (existsb _ (inputText s)) eqn:E; [now apply trim_visible|].
    pose proof (blank_or_visible (inputText s)) as Hb. rewrite E in Hb.
    now rewrite (trim_blank _ Hb). }
  split; [exact Ht|].
  unfold handleDetectDocumentType, handleProcessAll. rewrite Ht.
  destruct visible; repeat split.
Qed.

(* ------------------------------------------------------------------ *)
(** ** How the stages compose *)

Lemma run_cons (w : World) (e : Event) (events : list Event) :
  run w (e :: events) = run (step w e) events.
Proof. reflexivity. Qed.

Lemma run_nil (w : World) : run w [] = w.
Proof. reflexivity. Qed.

Ltac idle_on_input_tab w Htab Hbusy :=
  destruct w as [[t dF sF eF res err hist tab] infl st net clk];
  unfold inputTabShown, busy in Htab, Hbusy; simpl in Htab, Hbusy;
  apply String.eqb_eq in Htab; subst tab;
  destruct dF, sF, eF; try discriminate Hbusy; clear Hbusy.

(** Evaluates a run one event at a time, each world being brought to an
    explicit record before the next event is applied. *)
Ltac eval_run :=
  repeat (rewrite run_cons;
          match goal with
          | |- context [run (step ?w ?e) ?es] =>
              let v := eval cbv -[app newHistory historyEntry trim
                                  TextAnalysis.documentTypeDetectionChain
                                  TextAnalysis.documentSummaryChain
                                  TextAnalysis.invoiceExtractionChain
                                  TextAnalysis.deliveryNoteExtractionChain
                                  TextAnalysis.receiptExtractionChain]
                       in (step w e) in
              change (step w e) with v
          end);
  rewrite ?run_nil.

Ltac known_category d H :=
  destruct d as [dt conf why]; unfold knownCategory in H; simpl in H;
  destruct H as [<-|[<-|[<-|[]]]].

Lemma click_detect_ready (w : World) :
  ready w ->
  step w ClickDetect
  = call w {| next := setIsDetectingType true (setError None (component w));
              suspended := Some (DetectPending (component w)
                                   (TextAnalysis.detectDocumentType
                                      (inputText (component w))));
              issued := [TextAnalysis.invoke TextAnalysis.documentTypeDetectionChain
                           [("text", inputText (component w))]];
              historySet := false |}.
Proof.
  intros (Htab & Hbusy & Htrim).
  unfold step, detectDisabled, handleDetectDocumentType. cbv zeta.
  now rewrite Htab, Hbusy, Htrim.
Qed.

Lemma click_processAll_ready (w : World) :
  ready w ->
  step w ClickProcessAll
  = call w {| next := setIsDetectingType true (setError None (component w));
              suspended := Some (ProcessAllDetecting (component w)
                                   (TextAnalysis.detectDocumentType
                                      (inputText (component w))));
              issued := [TextAnalysis.invoke TextAnalysis.documentTypeDetectionChain
                           [("text", inputText (component w))]];
              historySet := false |}.
Proof.
  intros (Htab & Hbusy & Htrim).
  unfold step, processAllDisabled, handleProcessAll. cbv zeta.
  now rewrite Htab, Hbusy, Htrim.
Qed.

(** X10.  On a classified session with a known category and nothing in
    flight, asking for the summary and then for the extraction leaves the
    component in the same state as asking for them the other way round: the
    results hold the classification, the summary and the record, whatever
    summary or record they held before; the store is not written. *)
Theorem X10_summarize_and_extract_commute (w : World)
    (detected : TextAnalysis.DocumentTypeResult)
    (message : TextAnalysis.AIMessage) (extracted : Json) :
  inputTabShown (component w) = true ->
  busy (component w) = false ->
  classification (component w) = Some detected ->
  knownCategory (TextAnalysis.documentType detected) ->
  let a := run w (summarizeThenExtract message extracted) in
  let b := run w (extractThenSummarize message extracted) in
  component a = component b
  /\ results (component a)
     = Some {| documentType := Some detected;
               summary := Some (TextAnalysis.content message);
               extractedData := Some extracted |}
  /\ error (component a) = None
  /\ (inflight a = None /\ inflight b = None)
  /\ (localStorage a = localStorage w /\ localStorage b = localStorage w)
  /\ List.length (network a) = List.length (network w) + 2.
Proof.
  intros Htab Hbusy Hc Hk a b. subst a b.
  idle_on_input_tab w Htab Hbusy.
  unfold classification in Hc. simpl in Hc.
  destruct res as [[dT su ex]|]; [|discriminate]. simpl in Hc. subst dT.
  unfold summarizeThenExtract, extractThenSummarize.
  known_category detected Hk;
    (eval_run; cbn [component results error inflight localStorage network];
     repeat split; rewrite ?length_app; simpl; lia).
Qed.

Lemma X10_witness :
  let a := run classifiedSession
             (summarizeThenExtract sampleMessage Samples.invoiceRecord) in
  let b := run classifiedSession
             (extractThenSummarize sampleMessage Samples.invoiceRecord) in
  component a = component b
  /\ results (component a)
     = Some {| documentType := Some (Samples.classified "invoice" (9 # 10));
               summary := Some (TextAnalysis.content sampleMessage);
               extractedData := Some Samples.invoiceRecord |}.
Proof.
  intros a b.
  destruct (@X10_summarize_and_extract_commute classifiedSession
              (Samples.classified "invoice" (9 # 10)) sampleMessage
              Samples.invoiceRecord eq_refl eq_refl eq_refl)
    as (Hab & Hr & _).
  - left. reflexivity.
  - split; [exact Hab | exact Hr].
Defined.

(** X11.  Process All on a ready page, with the three calls resolving and a
    known category detected: the calls are issued one after the other, in
    the order detect, summarize, extract, the last two carrying the detected
    category; the results hold exactly the classification, the summary and
    the record; no flag is left set, no error is shown, the results tab is
    active; and the input is recorded in the history and in the store. *)
Theorem X11_process_all_runs_the_three_stages (w : World)
    (detected : TextAnalysis.DocumentTypeResult)
    (message : TextAnalysis.AIMessage) (extracted : Json) :
  ready w ->
  knownCategory (TextAnalysis.documentType detected) ->
  let s := component w in
  let t := inputText s in
  let w' := run w (processAllRun detected message extracted) in
  results (component w')
    = Some {| documentType := Some detected;
              summary := Some (TextAnalysis.content message);
              extractedData := Some extracted |}
  /\ error (component w') = None
  /\ busy (component w') = false
  /\ activeTab (component w') = "results"
  /\ inputText (component w') = t
  /\ inflight w' = None
  /\ network w'
     = (network w
        ++ [ TextAnalysis.invoke TextAnalysis.documentTypeDetectionChain [("text", t)];
             TextAnalysis.invoke TextAnalysis.documentSummaryChain
               [("text", t); ("documentType", TextAnalysis.documentType detected)] ]
        ++ TextAnalysis.calls
             (TextAnalysis.extractDocumentData t (TextAnalysis.documentType detected)))%list
  /\ history (component w') = newHistory (historyEntry t (clock w)) (history s)
  /\ localStorage w' = Some (Serialized (history (component w'))).
Proof.
  intros Hready Hk s t w'. subst s t w'.
  unfold processAllRun. rewrite run_cons, (click_processAll_ready Hready).
  destruct Hready as (Htab & Hbusy & _).
  idle_on_input_tab w Htab Hbusy.
  unfold call. cbn [component inputText history network clock localStorage
                    next suspended issued historySet saved inflight].
  known_category detected Hk;
    (eval_run;
     cbn [component results error inflight localStorage network busy activeTab
          inputText history isDetectingType isSummarizing isExtractingData
          TextAnalysis.documentType];
     repeat split; rewrite <- ?app_assoc; reflexivity).
Qed.

Lemma X11_witness :
  let w' := run typed (processAllRun (Samples.classified "receipt" (4 # 5))
                         sampleMessage Samples.invoiceRecord) in
  results (component w')
    = Some {| documentType := Some (Samples.classified "receipt" (4 # 5));
              summary := Some (TextAnalysis.content sampleMessage);
              extractedData := Some Samples.invoiceRecord |}
  /\ List.length (network w') = 3.
Proof.
  intros w'.
  destruct (@X11_process_all_runs_the_three_stages typed
              (Samples.classified "receipt" (4 # 5)) sampleMessage
              Samples.invoiceRecord) as (Hr & _ & _ & _ & _ & _ & Hn & _).
  - repeat split.
  - right. right. left. reflexivity.
  - split; [exact Hr|]. fold w' in Hn. now rewrite Hn.
Defined.



(** X13.  When one of the three calls awaited by Process All fails, the
    handler shows the processing error and resets all three flags; the
    results are left as the earlier stages of the run stored them (after a
    failed summary, the classification alone), and the input text, the
    history, the active tab, the store and the list of remote calls are
    untouched: no later stage is called. *)
Theorem X13_process_all_stops_at_the_failing_stage (w : World) (closure : State)
    (reply : RemoteReply) :
  (exists stage o e,
      inflight w = Some (ProcessAllDetecting closure stage)
      /\ reply = ClassifierReply o
      /\ TextAnalysis.settle stage o = Rejected e)
  \/ (exists detected stage o e,
      inflight w = Some (ProcessAllSummarizing closure detected stage)
      /\ reply = ChatReply o
      /\ TextAnalysis.settle stage o = Rejected e)
  \/ (exists detected stage o e,
      inflight w = Some (ProcessAllExtracting closure detected stage)
      /\ reply = ExtractorReply o
      /\ TextAnalysis.settle stage o = Rejected e) ->
  let s := component w in
  let w' := step w (Reply reply) in
  component w'
  = setIsExtractingData false
      (setIsSummarizing false
         (setIsDetectingType false
            (setError
               (Some (lit "An error occurred during document processing. Please try again."))
               s)))
  /\ results (component w') = results s
  /\ busy (component w') = false
  /\ inflight w' = None
  /\ network w' = network w
  /\ localStorage w' = localStorage w.
Proof.
  intros H s w'. subst s w'.
  destruct H as [(stage & o & e & Hp & -> & Hs)
                |[(detected & stage & o & e & Hp & -> & Hs)
                 |(detected & stage & o & e & Hp & -> & Hs)]];
    unfold step; cbv zeta; rewrite Hp; unfold resume; rewrite Hs; simpl;
    rewrite app_nil_r; repeat split.
Qed.

Lemma X13_witness :
  let w' := step processingAllSummary (Reply (ChatReply (Rejected Samples.timeout))) in
  results (component w')
    = Some {| documentType := Some (Samples.classified "invoice" (9 # 10));
              summary := None; extractedData := None |}
  /\ busy (component w') = false
  /\ network w' = network processingAllSummary.
Proof.
  intros w'.
  destruct (@X13_process_all_stops_at_the_failing_stage processingAllSummary
              (component typed) (ChatReply (Rejected Samples.timeout)))
    as (_ & Hr & Hb & _ & Hn & _).
  - right. left.
    exists (Samples.classified "invoice" (9 # 10)),
           (TextAnalysis.summarizeDocument Samples.rekins (lit "invoice")),
           (Rejected Samples.timeout), Samples.timeout.
    repeat split.
  - split; [exact Hr|]. split; [exact Hb | exact Hn].
Defined.

(** X14.  Typing another text does not reset the results, and a detection
    of the new text only replaces the classification: on a page with
    results and nothing in flight, after a new non-blank text is typed and
    successfully detected, the results still hold the summary and the
    record they held for the previous text. *)
Theorem X14_new_detection_keeps_summary_and_record (w : World)
    (previous : AnalysisResults) (value : jsstring)
    (detected : TextAnalysis.DocumentTypeResult) :
  inputTabShown (component w) = true ->
  busy (component w) = false ->
  results (component w) = Some previous ->
  truthy (trim value) = true ->
  let w' := run w [ TypeText value; ClickDetect;
                    Reply (ClassifierReply (Resolved detected)) ] in
  results (component (step w (TypeText value))) = Some previous
  /\ inputText (component w') = value
  /\ results (component w')
     = Some {| documentType := Some detected;
               summary := summary previous;
               extractedData := extractedData previous |}
  /\ network w'
     = (network w
        ++ [TextAnalysis.invoke TextAnalysis.documentTypeDetectionChain
              [("text", value)]])%list.
Proof.
  intros Htab Hbusy Hres Htrim w'. subst w'.
  assert (Hready : ready (step w (TypeText value))).
  { unfold step. cbv zeta. rewrite Htab. repeat split; assumption. }
  rewrite (@run_cons w (TypeText value)),
    (@run_cons (step w (TypeText value)) ClickDetect),
    (click_detect_ready Hready). clear Hready.
  idle_on_input_tab w Htab Hbusy. simpl in Hres. subst res.
  replace (step {| component := {| inputText := t; isDetectingType := false;
                                   isSummarizing := false; isExtractingData := false;
                                   results := Some previous; error := err;
                                   history := hist; activeTab := "input" |};
                   inflight := infl; localStorage := st; network := net;
                   clock := clk |} (TypeText value))
    with {| component := {| inputText := value; isDetectingType := false;
                            isSummarizing := false; isExtractingData := false;
                            results := Some previous; error := err;
                            history := hist; activeTab := "input" |};
            inflight := infl; localStorage := st; network := net;
            clock := clk |} by reflexivity.
  unfold call. cbn [component inputText history network clock localStorage
                    next suspended issued historySet saved inflight].
  destruct detected as [dt conf why].
  eval_run. cbn [component results inputText network].
  repeat split. now rewrite app_nil_r.
Qed.

Lemma X14_witness :
  let previous := {| documentType := Some (Samples.classified "invoice" (9 # 10));
                     summary := Some (TextAnalysis.content sampleMessage);
                     extractedData := Some Samples.invoiceRecord |} in
  let w := run classifiedSession
             (summarizeThenExtract sampleMessage Samples.invoiceRecord) in
  let w' := run w [ TypeText (lit "Ceks 77"); ClickDetect;
                    Reply (ClassifierReply (Resolved (Samples.classified "receipt" 1))) ] in
  results (component w')
  = Some {| documentType := Some (Samples.classified "receipt" 1);
            summary := Some (TextAnalysis.content sampleMessage);
            extractedData := Some Samples.invoiceRecord |}.
Proof.
  intros previous w w'.
  destruct (@X14_new_detection_keeps_summary_and_record w previous
              (lit "Ceks 77") (Samples.classified "receipt" 1)
              eq_refl eq_refl eq_refl eq_refl) as (_ & _ & Hr & _).
  exact Hr.
Defined.

(* ------------------------------------------------------------------ *)
(** ** An unknown category *)






(* ------------------------------------------------------------------ *)
(** ** The schemas *)

Lemma accepts_object_forallb (shape : list (string * Zod))
    (members : list (string * Json)) :
  accepts (z_object shape) (Some (JObj members))
  = forallb (fun kz => accepts (snd kz) (member (fst kz) members)) shape.
Proof.
  simpl. induction shape as [|[k zk] rest IH]; simpl; [reflexivity|].
  now rewrite IH.
Qed.

Lemma shape_set_fresh (k : string) (z : Zod) (shape ext : list (string * Zod)) :
  shape_get k shape = None ->
  shape_set k z (shape ++ ext) = (shape ++ shape_set k z ext)%list.
Proof.
  induction shape as [|[k' z'] rest IH]; simpl; [reflexivity|].
  destruct (String.eqb k k'); [discriminate|].
  intros H. now rewrite IH.
Qed.

Lemma extend_keeps_base (shape : list (string * Zod))
    (augmentation ext : list (string * Zod)) :
  (forall kz, In kz augmentation -> shape_get (fst kz) shape = None) ->
  exists ext',
    fold_left (fun sh kz => shape_set (fst kz) (snd kz) sh) augmentation
              (shape ++ ext)%list
    = (shape ++ ext')%list.
Proof.
  revert ext. induction augmentation as [|[k z] rest IH]; intros ext Hfresh; simpl.
  - now exists ext.
  - rewrite shape_set_fresh by (apply (Hfresh (k, z)); now left).
    apply IH. intros kz Hin. apply Hfresh. now right.
Qed.

(** A schema extended with keys its base does not have accepts only what
    the base accepts. *)
Lemma extend_refines (shape augmentation : list (string * Zod)) (v : option Json) :
  (forall kz, In kz augmentation -> shape_get (fst kz) shape = None) ->
  accepts (extend (z_object shape) augmentation) v = true ->
  accepts (z_object shape) v = true.
Proof.
  intros Hfresh. unfold extend.
  destruct (extend_keeps_base shape augmentation [] Hfresh) as (ext' & He).
  rewrite app_nil_r in He. rewrite He.
  destruct v as [[| | | | |members]|]; try (simpl; discriminate).
  rewrite !accepts_object_forallb, forallb_app.
  intros H. now apply andb_prop in H.
Qed.

(** X17.  The three record schemas are disjoint: a value that one of
    [InvoiceSchema], [DeliveryNoteSchema] and [ReceiptSchema] accepts is
    rejected by the other two, since each pins [documentType] to its own
    literal. *)
Theorem X17_record_schemas_are_disjoint (s1 s2 : Zod) (record : Json) :
  In s1 [InvoiceSchema; DeliveryNoteSchema; ReceiptSchema] ->
  In s2 [InvoiceSchema; DeliveryNoteSchema; ReceiptSchema] ->
  s1 <> s2 ->
  accepts s1 (Some record) = true ->
  accepts s2 (Some record) = false.
Proof.
  intros H1 H2 Hne Ha.
  destruct (accepts s2 (Some record)) eqn:Hb; [exfalso|reflexivity].
  assert (Hlit : forall s, In s [InvoiceSchema; DeliveryNoteSchema; ReceiptSchema] ->
            exists category, documentType_literal s = Some category
              /\ In (category, s) [ ("invoice", InvoiceSchema);
                                    ("deliveryNote", DeliveryNoteSchema);
                                    ("receipt", ReceiptSchema) ]).
  { intros s Hs. simpl in Hs.
    destruct Hs as [<-|[<-|[<-|[]]]]; eexists; (split; [reflexivity|]);
      simpl; auto. }
  destruct (Hlit s1 H1) as (c1 & L1 & I1).
  destruct (Hlit s2 H2) as (c2 & L2 & I2).
  pose proof (accepted_record_documentType s1 record L1 Ha) as F1.
  pose proof (accepted_record_documentType s2 record L2 Hb) as F2.
  rewrite F1 in F2. apply Hne.
  simpl in I1, I2.
  destruct I1 as [[= <- <-]|[[= <- <-]|[[= <- <-]|[]]]];
    destruct I2 as [[= <- <-]|[[= <- <-]|[[= <- <-]|[]]]];
    try reflexivity; vm_compute in F2; discriminate F2.
Qed.

Lemma X17_witness :
  accepts InvoiceSchema (Some Samples.invoiceRecord) = true
  /\ accepts ReceiptSchema (Some Samples.invoiceRecord) = false
  /\ accepts DeliveryNoteSchema (Some Samples.invoiceRecord) = false.
Proof.
  assert (Ha : accepts InvoiceSchema (Some Samples.invoiceRecord) = true)
    by (vm_compute; reflexivity).
  split; [exact Ha|]. split.
  - apply (@X17_record_schemas_are_disjoint InvoiceSchema ReceiptSchema);
      simpl; auto. vm_compute. discriminate.
  - apply (@X17_record_schemas_are_disjoint InvoiceSchema DeliveryNoteSchema);
      simpl; auto. vm_compute. discriminate.
Defined.

(** X18.  Every record that [InvoiceSchema], [DeliveryNoteSchema] or
    [ReceiptSchema] accepts is a base document: [BaseDocumentSchema] accepts
    it too, so the document number, the date, the seller and the buyer with
    their names, the total amount and the currency are present in each
    variant. *)
Theorem X18_record_schemas_refine_the_base (schema : Zod) (v : option Json) :
  In schema [InvoiceSchema; DeliveryNoteSchema; ReceiptSchema] ->
  accepts schema v = true ->
  accepts BaseDocumentSchema v = true
  /\ exists members,
       v = Some (JObj members)
       /\ (exists s, member "documentNumber" members = Some (JStr s))
       /\ (exists q, member "totalAmount" members = Some (JNum q))
       /\ (exists s, member "currency" members = Some (JStr s)).
Proof.
  intros Hin Ha.
  assert (Hbase : accepts BaseDocumentSchema v = true).
  { simpl in Hin.
    destruct Hin as [<-|[<-|[<-|[]]]];
      (eapply extend_refines; [|exact Ha]);
      intros kz Hkz; simpl in Hkz;
      repeat (destruct Hkz as [<-|Hkz]; [reflexivity|]); destruct Hkz. }
  split; [exact Hbase|].
  destruct v as [[| | | | |members]|]; try (simpl in Hbase; discriminate).
  exists members. split; [reflexivity|].
  unfold BaseDocumentSchema in Hbase.
  pose proof (fun zk H => @accepts_object_member _ "documentNumber" zk members H Hbase)
    as Hn.
  pose proof (fun zk H => @accepts_object_member _ "totalAmount" zk members H Hbase)
    as Ht.
  pose proof (fun zk H => @accepts_object_member _ "currency" zk members H Hbase)
    as Hc.
  specialize (Hn _ eq_refl). specialize (Ht _ eq_refl). specialize (Hc _ eq_refl).
  simpl in Hn, Ht, Hc.
  destruct (member "documentNumber" members) as [[| | |n| |]|]; try discriminate.
  destruct (member "totalAmount" members) as [[| |q| | |]|]; try discriminate.
  destruct (member "currency" members) as [[| | |c| |]|]; try discriminate.
  repeat split; eexists; reflexivity.
Qed.

Lemma X18_witness :
  accepts BaseDocumentSchema (Some Samples.invoiceRecord) = true.
Proof.
  apply (@X18_record_schemas_refine_the_base InvoiceSchema).
  - simpl. auto.
  - vm_compute. reflexivity.
Defined.

Lemma existsb_known (documentType : jsstring) :
  existsb (fun value => jsstring_eqb documentType (lit value))
          ["invoice"; "deliveryNote"; "receipt"] = true
  <-> knownCategory documentType.
Proof.
  unfold knownCategory. rewrite existsb_exists. split.
  - intros (value & Hin & He). apply jsstring_eqb_eq in He. subst.
    simpl in Hin. destruct Hin as [<-|[<-|[<-|[]]]]; simpl; auto.
  - simpl.
    intros [<-|[<-|[<-|[]]]];
      [exists "invoice"|exists "deliveryNote"|exists "receipt"];
      (split; [simpl; auto | reflexivity]).
Qed.

(** X19.  The categories [DocumentTypeSchema] admits are exactly those
    [extractDocumentData] has a chain for: a classification conforms to the
    detection schema exactly when its category is one of the three, and then
    the extraction issues one call, bound to a schema that pins
    [documentType] to that category, and never takes the unsupported
    arm. *)
Theorem X19_detected_categories_are_extractable (ocrText : jsstring)
    (r : TextAnalysis.DocumentTypeResult) :
  (accepts DocumentTypeSchema (Some (TextAnalysis.DocumentTypeResult_json r)) = true
   <-> knownCategory (TextAnalysis.documentType r))
  /\ (knownCategory (TextAnalysis.documentType r) ->
      exists c schema category,
        TextAnalysis.extractDocumentData ocrText (TextAnalysis.documentType r)
        = TextAnalysis.Awaits (TextAnalysis.invoke c [("text", ocrText)])
            (fun reply => match reply with
                          | Resolved extractionResult => Resolved extractionResult
                          | Rejected error => Rejected error
                          end)
        /\ TextAnalysis.requested_schema c = Some schema
        /\ documentType_literal schema = Some category
        /\ TextAnalysis.documentType r = lit category).
Proof.
  split.
  - destruct r as [dt conf why]. unfold DocumentTypeSchema.
    rewrite <- existsb_known. simpl.
    destruct (_ || _); simpl; split; auto.
  - destruct r as [dt conf why]. simpl. unfold knownCategory. simpl.
    intros [<-|[<-|[<-|[]]]].
    + exists TextAnalysis.invoiceExtractionChain, InvoiceSchema, "invoice".
      repeat split.
    + exists TextAnalysis.deliveryNoteExtractionChain, DeliveryNoteSchema, "deliveryNote".
      repeat split.
    + exists TextAnalysis.receiptExtractionChain, ReceiptSchema, "receipt".
      repeat split.
Qed.

Lemma X19_witness :
  accepts DocumentTypeSchema
    (Some (TextAnalysis.DocumentTypeResult_json (Samples.classified "receipt" 1))) = true
  /\ exists c,
       TextAnalysis.calls
         (TextAnalysis.extractDocumentData Samples.rekins
            (TextAnalysis.documentType (Samples.classified "receipt" 1)))
       = [TextAnalysis.invoke c [("text", Samples.rekins)]]
       /\ TextAnalysis.requested_schema c = Some ReceiptSchema.
Proof.
  destruct (X19_detected_categories_are_extractable Samples.rekins
              (Samples.classified "receipt" 1)) as ((_ & Hacc) & Hext).
  assert (Hk : knownCategory
                 (TextAnalysis.documentType (Samples.classified "receipt" 1)))
    by (unfold knownCategory; simpl; auto).
  split; [exact (Hacc Hk)|].
  exists TextAnalysis.receiptExtractionChain. split; reflexivity.
Defined.

(* ------------------------------------------------------------------ *)
(** ** Clear, reload and the stored history *)

(** X20.  After any sequence of events from a first visit, when no stage is
    in flight Clear brings the component back to its initial state apart
    from the history, which it keeps; so, unless the history has been
    emptied by Clear History, the cleared component is the one a reload of
    the page mounts. *)
Theorem X20_clear_is_a_fresh_mount (events : list Event) :
  let w := run boot events in
  busy (component w) = false ->
  handleClear (component w) = setHistory (history (component w)) initialState
  /\ (history (component w) <> [] ->
      handleClear (component w) = component (step w Reload)).
Proof.
  intros w Hbusy.
  assert (Hclear : handleClear (component w)
                   = setHistory (history (component w)) initialState).
  { destruct (component w) as [t dF sF eF res err hist tab].
    unfold busy in Hbusy. simpl in Hbusy.
    destruct dF, sF, eF; try discriminate Hbusy. reflexivity. }
  split; [exact Hclear|].
  intros Hne. rewrite Hclear.
  assert (Hw : mirrored w) by (apply run_mirrored; reflexivity).
  unfold mirrored in Hw. unfold step, mount.
  destruct (localStorage w) as [[h|]|]; simpl.
  - destruct Hw as (_ & [Hh|Hh]); [contradiction | now rewrite Hh].
  - contradiction.
  - contradiction.
Qed.

Lemma X20_witness :
  let w := run boot (Samples.oneDetection Samples.rekins) in
  results (component w) <> None
  /\ handleClear (component w) = component (step w Reload).
Proof.
  intros w. split; [vm_compute; discriminate|].
  destruct (X20_clear_is_a_fresh_mount (Samples.oneDetection Samples.rekins))
    as (_ & H); [reflexivity|].
  apply H. vm_compute. discriminate.
Defined.

(** X21.  A stored value that cannot be parsed is tolerated: the component
    mounts with an empty history and leaves the store as it is; the first
    recorded detection then replaces it by the one-entry history. *)
Theorem X21_unparseable_store_is_replaced (calls : list TextAnalysis.RemoteCall)
    (now : N) (value : jsstring) (detected : TextAnalysis.DocumentTypeResult) :
  truthy (trim value) = true ->
  let w := mount (Some Unparseable) calls now in
  let w' := run w [ TypeText value; ClickDetect;
                    Reply (ClassifierReply (Resolved detected)) ] in
  history (component w) = []
  /\ localStorage w = Some Unparseable
  /\ history (component w') = [historyEntry value now]
  /\ localStorage w' = Some (Serialized [historyEntry value now]).
Proof.
  intros Htrim w w'. subst w w'.
  split; [reflexivity|]. split; [reflexivity|].
  rewrite run_cons.
  match goal with
  | |- context [run (step ?w1 ?e) ?es] =>
      let v := eval cbv -[app newHistory historyEntry trim] in (step w1 e) in
      change (step w1 e) with v
  end.
  rewrite run_cons, click_detect_ready by (repeat split; exact Htrim).
  unfold call. cbn [component inputText history network clock localStorage
                    next suspended issued historySet saved inflight].
  destruct detected as [dt conf why].
  eval_run. split; reflexivity.
Qed.

Lemma X21_witness :
  let w' := run (mount (Some Unparseable) [] 7)
              [ TypeText Samples.rekins; ClickDetect;
                Reply (ClassifierReply (Resolved Samples.overconfident)) ] in
  localStorage w' = Some (Serialized [historyEntry Samples.rekins 7]).
Proof.
  intros w'.
  destruct (@X21_unparseable_store_is_replaced [] 7%N Samples.rekins
              Samples.overconfident eq_refl) as (_ & _ & _ & H).
  exact H.
Defined.

(** X22.  The stored list is not cut when it is loaded: the component
    mounts with every stored entry, however many.  It is cut when the next
    entry is recorded: the history and the store then hold the new entry
    followed by the four first entries of the list the handler closed
    over. *)
Theorem X22_loaded_history_is_cut_at_the_next_entry
    (stored : list HistoryItem) (calls : list TextAnalysis.RemoteCall) (now : N)
    (value : jsstring) (detected : TextAnalysis.DocumentTypeResult) :
  truthy (trim value) = true ->
  let w := mount (Some (Serialized stored)) calls now in
  let w' := run w [ TypeText value; ClickDetect;
                    Reply (ClassifierReply (Resolved detected)) ] in
  history (component w) = stored
  /\ history (component w') = historyEntry value now :: firstn 4 stored
  /\ localStorage w' = Some (Serialized (historyEntry value now :: firstn 4 stored))
  /\ List.length (history (component w')) <= 5.
Proof.
  intros Htrim w w'. subst w w'.
  split; [reflexivity|].
  rewrite run_cons.
  match goal with
  | |- context [run (step ?w1 ?e) ?es] =>
      let v := eval cbv -[app newHistory historyEntry trim saveHistory] in (step w1 e) in
      change (step w1 e) with v
  end.
  rewrite run_cons, click_detect_ready by (repeat split; exact Htrim).
  unfold call. cbn [component inputText history network clock localStorage
                    next suspended issued historySet saved inflight].
  destruct detected as [dt conf why].
  rewrite run_cons, run_nil.
  match goal with
  | |- context [step ?w1 ?e] =>
      let v := eval cbv -[app historyEntry trim firstn] in (step w1 e) in
      change (step w1 e) with v
  end.
  cbn [component history localStorage].
  split; [reflexivity|]. split; [reflexivity|].
  change (S (List.length (firstn 4 stored)) <= 5).
  rewrite length_firstn. lia.
Qed.

Lemma X22_witness :
  let six := repeat {| text := lit "old"; timestamp := 1 |} 6 in
  let w := mount (Some (Serialized six)) [] 9 in
  let w' := run w [ TypeText Samples.rekins; ClickDetect;
                    Reply (ClassifierReply (Resolved Samples.overconfident)) ] in
  List.length (history (component w)) = 6
  /\ List.length (history (component w')) = 5.
Proof.
  intros six w w'.
  destruct (@X22_loaded_history_is_cut_at_the_next_entry six [] 9%N Samples.rekins
              Samples.overconfident eq_refl) as (H0 & H1 & _).
  fold w in H0. fold w w' in H1. rewrite H0, H1. split; reflexivity.
Defined.

(** X23.  A recent input loaded while a summary or an extraction is in
    flight does not keep the results reset: when the call resolves the
    handler stores the results it closed over, with the new summary or
    record added, next to the loaded text. *)
Theorem X23_results_come_back_after_a_load_in_flight (w : World) (closure : State)
    (reply : RemoteReply) (index : nat) (item : HistoryItem)
    (restored : AnalysisResults) :
  (exists stage o value,
      inflight w = Some (SummarizePending closure stage)
      /\ reply = ChatReply o
      /\ TextAnalysis.settle stage o = Resolved value
      /\ restored = with_summary value (spread (results closure)))
  \/ (exists stage o value,
      inflight w = Some (ExtractPending closure stage)
      /\ reply = ExtractorReply o
      /\ TextAnalysis.settle stage o = Resolved value
      /\ restored = with_extractedData value (spread (results closure))) ->
  inputTabShown (component w) = true ->
  nth_error (history (component w)) index = Some item ->
  let w1 := step w (ClickRecent index) in
  let w2 := step w1 (Reply reply) in
  (inputText (component w1) = text item /\ results (component w1) = None)
  /\ inputText (component w2) = text item
  /\ results (component w2) = Some restored
  /\ error (component w2) = None
  /\ inflight w2 = None.
Proof.
  intros H Htab Hnth w1 w2. subst w2 w1.
  assert (H1 : step w (ClickRecent index)
               = render w (loadFromHistory (text item) (component w))).
  { unfold step. cbv zeta. now rewrite Htab, Hnth. }
  rewrite H1.
  destruct H as [(stage & o & value & Hp & -> & Hs & ->)
                |(stage & o & value & Hp & -> & Hs & ->)];
    unfold step; cbv zeta; simpl inflight; rewrite Hp; unfold resume;
    rewrite Hs; repeat split.
Qed.

Lemma X23_witness :
  let w2 := run Samples.summarizing
              [ClickRecent 0; Reply (ChatReply (Resolved sampleMessage))] in
  inputText (component w2) = Samples.rekins
  /\ results (component w2)
     = Some {| documentType := Some (Samples.classified "invoice" (9 # 10));
               summary := Some (TextAnalysis.content sampleMessage);
               extractedData := None |}.
Proof.
  intros w2.
  destruct (@X23_results_come_back_after_a_load_in_flight Samples.summarizing
              (component classifiedSession)
              (ChatReply (Resolved sampleMessage)) 0
              {| text := Samples.rekins; timestamp := 260 |}
              {| documentType := Some (Samples.classified "invoice" (9 # 10));
                 summary := Some (TextAnalysis.content sampleMessage);
                 extractedData := None |})
    as (_ & Ht & Hr & _).
  - left.
    exists (TextAnalysis.summarizeDocument Samples.rekins (lit "invoice")),
           (Resolved sampleMessage), (TextAnalysis.content sampleMessage).
    repeat split.
  - reflexivity.
  - reflexivity.
  - split; [exact Ht | exact Hr].
Defined.
